(** * LearnHub backend: a shallow embedding of [main.py] and [schemas.py]

    The service stores three kinds of documents (materials, tutors and
    bookings) in a document database and exposes them over HTTP/JSON.
    Python dictionaries are finite maps from strings to values, the
    database handle [db] is an optional store, and handlers run in a small
    state-and-exception monad over that handle. *)

From Stdlib Require Import ZArith NArith QArith String Ascii List Bool Lia.
From stdpp Require Import base option list strings gmap fin_maps.

Import ListNotations.
Local Open Scope string_scope.
Local Open Scope list_scope.

(** ** Strings *)

Module PyStr.

(** [str.lower()] on the ASCII range: [A-Z] go to [a-z]. *)
Definition lower_ascii (c : ascii) : ascii :=
  let n := N_of_ascii c in
  if ((65 <=? n) && (n <=? 90))%N then ascii_of_N (n + 32) else c.

Fixpoint lower (s : string) : string :=
  match s with
  | EmptyString => EmptyString
  | String c s' => String (lower_ascii c) (lower s')
  end.

(** [sub in s] for two strings. *)
Fixpoint contains (sub s : string) : bool :=
  String.prefix sub s ||
  match s with
  | EmptyString => false
  | String _ s' => contains sub s'
  end.

(** Truth value of a string: the empty string is falsy. *)
Definition nonempty (s : string) : bool :=
  match s with EmptyString => false | String _ _ => true end.

End PyStr.

(** ** Object identifiers

    An [ObjectId] is a 96-bit number.  [ObjectId(s)] accepts a string of 24
    hexadecimal digits and raises on anything else; [str(oid)] renders the
    24 lower-case digits. *)

Module Bson.

Definition ObjectId := N.

Definition hex_val (c : ascii) : option N :=
  let n := N_of_ascii c in
  if ((48 <=? n) && (n <=? 57))%N then Some (n - 48)%N
  else if ((97 <=? n) && (n <=? 102))%N then Some (n - 87)%N
  else if ((65 <=? n) && (n <=? 70))%N then Some (n - 55)%N
  else None.

Definition hex_digit (d : N) : ascii :=
  if (d <? 10)%N then ascii_of_N (d + 48) else ascii_of_N (d + 87).

Fixpoint hex_parse (acc : N) (s : string) : option N :=
  match s with
  | EmptyString => Some acc
  | String c s' =>
      match hex_val c with
      | Some d => hex_parse (16 * acc + d)%N s'
      | None => None
      end
  end.

Fixpoint hex_render (k : nat) (n : N) (acc : string) : string :=
  match k with
  | O => acc
  | S k' => hex_render k' (n / 16)%N (String (hex_digit (n mod 16)%N) acc)
  end.

(** [ObjectId(s)]: [None] stands for the [InvalidId] exception. *)
Definition parse (s : string) : option ObjectId :=
  if Nat.eqb (String.length s) 24 then hex_parse 0%N s else None.

(** [str(oid)]. *)
Definition str (o : ObjectId) : string := hex_render 24 o EmptyString.

End Bson.

(** ** Python values and documents *)

#[warnings="-register-all"]
Inductive value : Type :=
| VNone
| VBool (b : bool)
| VInt (z : Z)
| VFloat (q : Q)
| VStr (s : string)
| VList (l : list value)
| VDict (d : gmap string value)
| VOid (o : Bson.ObjectId).

(** A document is a Python [dict] with string keys. *)
Abbreviation doc := (gmap string value).

(** Truth value of a dictionary: [not doc] holds for the empty one. *)
Definition doc_truthy (d : doc) : bool := negb (Nat.eqb (size d) 0).

(** Truth value of a Python object. *)
Definition truthy (v : value) : bool :=
  match v with
  | VNone => false
  | VBool b => b
  | VInt z => negb (z =? 0)%Z
  | VFloat q => negb (Qnum q =? 0)%Z
  | VStr s => PyStr.nonempty s
  | VList l => match l with [] => false | _ :: _ => true end
  | VDict d => doc_truthy d
  | VOid _ => true
  end.

(** Equality of two values as the store compares a field with a filter
    value.  Dictionaries are never used as filter values. *)
Fixpoint value_eqb (a b : value) : bool :=
  match a, b with
  | VNone, VNone => true
  | VBool x, VBool y => Bool.eqb x y
  | VInt x, VInt y => (x =? y)%Z
  | VFloat x, VFloat y => Qeq_bool x y
  | VStr x, VStr y => String.eqb x y
  | VList x, VList y =>
      (fix all2 (x y : list value) : bool :=
         match x, y with
         | [], [] => true
         | v :: x', w :: y' => value_eqb v w && all2 x' y'
         | _, _ => false
         end) x y
  | VOid x, VOid y => (x =? y)%N
  | _, _ => false
  end.

(** ** Serialisation ([serialize_doc]) *)

Definition serialize_doc (d0 : doc) : doc :=
  if negb (doc_truthy d0) then d0
  else
    let d := d0 in
    match d !! "_id" with
    | Some (VOid _id) => delete "_id" (<["id" := VStr (Bson.str _id)]> d)
    | _ => d
    end.

(** ** JSON request bodies *)

#[warnings="-register-all"]
Inductive json : Type :=
| JNull
| JBool (b : bool)
| JNum (q : Q)
| JStr (s : string)
| JArr (l : list json)
| JObj (l : list (string * json)).

(** Member lookup in a parsed JSON object; of two members with the same
    name the later one wins, as in [json.loads]. *)
Fixpoint obj_get (k : string) (l : list (string * json)) : option json :=
  match l with
  | [] => None
  | (k', v) :: l' =>
      match obj_get k l' with
      | Some w => Some w
      | None => if String.eqb k k' then Some v else None
      end
  end.

(** ** Results *)

Inductive result (E A : Type) : Type :=
| Ok (a : A)
| Err (e : E).
Arguments Ok {E A} a.
Arguments Err {E A} e.

Definition is_ok {E A} (r : result E A) : bool :=
  match r with Ok _ => true | Err _ => false end.

(** ** The validation layer

    A Pydantic model is a list of fields in declaration order.  Each field
    has a type annotation, a default (or [...] for a required field) and
    numeric bounds.  Number fields take JSON numbers; the conversions of
    numeric strings and booleans into numbers are outside this model. *)

Module Pydantic.

Inductive ftype : Type :=
| TStr
| TFloat
| TInt
| TLiteral (allowed : list string)
| TOptional (t : ftype)
| TList (t : ftype).

Inductive fdefault : Type :=
| Required
| Default (v : value).

Record bounds : Type := Bounds {
  ge : option Q;
  gt : option Q;
  le : option Q
}.

Definition unbounded : bounds := Bounds None None None.

Record field : Type := Field {
  fname : string;
  ftyp : ftype;
  fdef : fdefault;
  fbounds : bounds
}.

Inductive errkind : Type :=
| missing
| model_type
| string_type
| float_type
| int_type
| list_type
| literal_error
| greater_than_equal
| greater_than
| less_than_equal.

Inductive locitem : Type :=
| LKey (k : string)
| LIdx (i : nat).

(** One entry of the error list: where it happened and what kind. *)
Record verror : Type := VError {
  loc : list locitem;
  kind : errkind
}.

Definition at_loc (p : locitem) (e : verror) : verror :=
  VError (p :: loc e) (kind e).

Definition vresult := result (list verror) value.

Definition str_in (s : string) (l : list string) : bool :=
  existsb (String.eqb s) l.

(** A number is integral when its denominator divides its numerator. *)
Definition integral (q : Q) : bool := (Z.rem (Qnum q) (Zpos (Qden q)) =? 0)%Z.

(** Elements of a list are validated one by one; every failing element
    reports under its index. *)
Fixpoint coerce_items (f : json -> vresult) (i : nat) (l : list json)
  : result (list verror) (list value) :=
  match l with
  | [] => Ok []
  | j :: l' =>
      match f j, coerce_items f (S i) l' with
      | Ok v, Ok vs => Ok (v :: vs)
      | Ok _, Err es => Err es
      | Err e, Ok _ => Err (map (at_loc (LIdx i)) e)
      | Err e, Err es => Err (map (at_loc (LIdx i)) e ++ es)
      end
  end.

Fixpoint coerce (t : ftype) (j : json) : vresult :=
  match t with
  | TStr =>
      match j with JStr s => Ok (VStr s) | _ => Err [VError [] string_type] end
  | TFloat =>
      match j with JNum q => Ok (VFloat q) | _ => Err [VError [] float_type] end
  | TInt =>
      match j with
      | JNum q =>
          if integral q then Ok (VInt (Z.quot (Qnum q) (Zpos (Qden q))))
          else Err [VError [] int_type]
      | _ => Err [VError [] int_type]
      end
  | TLiteral allowed =>
      match j with
      | JStr s => if str_in s allowed then Ok (VStr s) else Err [VError [] literal_error]
      | _ => Err [VError [] literal_error]
      end
  | TOptional t' =>
      match j with
      | JNull => Ok VNone
      | _ => coerce t' j
      end
  | TList t' =>
      match j with
      | JArr l =>
          match coerce_items (coerce t') 0 l with
          | Ok vs => Ok (VList vs)
          | Err es => Err es
          end
      | _ => Err [VError [] list_type]
      end
  end.

Definition check_ge (b : bounds) (q : Q) : bool :=
  match ge b with Some lo => Qle_bool lo q | None => true end.

Definition check_gt (b : bounds) (q : Q) : bool :=
  match gt b with Some lo => negb (Qle_bool q lo) | None => true end.

Definition check_le (b : bounds) (q : Q) : bool :=
  match le b with Some hi => Qle_bool q hi | None => true end.

Definition violates (b : bounds) (q : Q) : option errkind :=
  if negb (check_ge b q) then Some greater_than_equal
  else if negb (check_gt b q) then Some greater_than
  else if negb (check_le b q) then Some less_than_equal
  else None.

(** Bounds constrain numbers; [None] under an [Optional] is not checked. *)
Definition check_bounds (b : bounds) (v : value) : vresult :=
  match v with
  | VFloat q =>
      match violates b q with Some k => Err [VError [] k] | None => Ok v end
  | VInt z =>
      match violates b (inject_Z z) with Some k => Err [VError [] k] | None => Ok v end
  | _ => Ok v
  end.

(** One field of a model against the members of the incoming object: an
    absent member takes the default, or is reported missing. *)
Definition validate_field (f : field) (obj : list (string * json)) : vresult :=
  match obj_get (fname f) obj with
  | None =>
      match fdef f with
      | Required => Err [VError [LKey (fname f)] missing]
      | Default v => Ok v
      end
  | Some j =>
      match coerce (ftyp f) j with
      | Ok v =>
          match check_bounds (fbounds f) v with
          | Ok v' => Ok v'
          | Err es => Err (map (at_loc (LKey (fname f))) es)
          end
      | Err es => Err (map (at_loc (LKey (fname f))) es)
      end
  end.

(** All fields in declaration order.  The errors of every failing field
    are collected, in that order; members that no field names are
    ignored. *)
Fixpoint validate_fields (fs : list field) (obj : list (string * json))
  : doc * list verror :=
  match fs with
  | [] => (∅, [])
  | f :: fs' =>
      let '(d, es) := validate_fields fs' obj in
      match validate_field f obj with
      | Ok v => (<[fname f := v]> d, es)
      | Err e => (d, e ++ es)
      end
  end.

(** A model from a JSON value; the result is the dumped model. *)
Definition validate_model (fs : list field) (j : json) : result (list verror) doc :=
  match j with
  | JObj obj =>
      match validate_fields fs obj with
      | (d, []) => Ok d
      | (_, e :: es) => Err (e :: es)
      end
  | _ => Err [VError [] model_type]
  end.

(** The request models [CreateMaterial], [CreateTutor] and
    [CreateBooking]: a body with the one required member [data]. *)
Definition validate_payload (fs : list field) (body : json) : result (list verror) doc :=
  match body with
  | JObj obj =>
      match obj_get "data" obj with
      | None => Err [VError [LKey "body"; LKey "data"] missing]
      | Some j =>
          match validate_model fs j with
          | Ok d => Ok d
          | Err es => Err (map (fun e => at_loc (LKey "body") (at_loc (LKey "data") e)) es)
          end
      end
  | _ => Err [VError [LKey "body"] model_type]
  end.

(** A field that does not validate against the members of an object. *)
Definition offending (obj : list (string * json)) (f : field) : bool :=
  negb (is_ok (validate_field f obj)).

(** The members of the object under [data], when the body has that shape. *)
Definition payload_members (body : json) : option (list (string * json)) :=
  match body with
  | JObj obj =>
      match obj_get "data" obj with
      | Some (JObj dobj) => Some dobj
      | _ => None
      end
  | _ => None
  end.

End Pydantic.

(** ** The schemas of [schemas.py] *)

Module Schemas.
Import Pydantic.

Definition Material : list field := [
  Field "title" TStr Required unbounded;
  Field "description" (TOptional TStr) (Default VNone) unbounded;
  Field "course"
    (TLiteral [
       "Information Technology";
       "Electrical Engineering";
       "Civil Engineering";
       "Business Administration";
       "Education";
       "Nursing";
       "Accountancy";
       "Hospitality Management"])
    Required unbounded;
  Field "subject" TStr Required unbounded;
  Field "type"
    (TLiteral ["Reviewer"; "Class Notes"; "Handout"; "Problem Set"; "Cheat Sheet"])
    Required unbounded;
  Field "price" TFloat (Default (VInt 0)) (Bounds (Some 0%Q) None None);
  Field "author_name" TStr Required unbounded;
  Field "university" TStr (Default (VStr "Pamantasan ng Lungsod ng Valenzuela")) unbounded;
  Field "file_url" (TOptional TStr) (Default VNone) unbounded;
  Field "rating" (TOptional TFloat) (Default (VFloat 4.8%Q)) (Bounds (Some 0%Q) None (Some 5%Q));
  Field "downloads" (TOptional TInt) (Default (VInt 0)) (Bounds (Some 0%Q) None None)
].

Definition Tutor : list field := [
  Field "name" TStr Required unbounded;
  Field "course"
    (TLiteral [
       "Information Technology";
       "Electrical Engineering";
       "Civil Engineering";
       "Business Administration";
       "Education";
       "Nursing";
       "Accountancy";
       "Hospitality Management"])
    Required unbounded;
  Field "subjects" (TList TStr) (Default (VList [])) unbounded;
  Field "rate_per_hour" TFloat Required (Bounds (Some 0%Q) None None);
  Field "modes" (TList (TLiteral ["One-on-One"; "Group"]))
    (Default (VList [VStr "One-on-One"])) unbounded;
  Field "bio" (TOptional TStr) (Default VNone) unbounded;
  Field "availability" (TOptional (TList TStr)) (Default (VList [])) unbounded;
  Field "rating" (TOptional TFloat) (Default (VFloat 4.9%Q)) (Bounds (Some 0%Q) None (Some 5%Q))
].

Definition Booking : list field := [
  Field "tutor_id" TStr Required unbounded;
  Field "student_name" TStr Required unbounded;
  Field "student_email" TStr Required unbounded;
  Field "mode" (TLiteral ["One-on-One"; "Group"]) Required unbounded;
  Field "session_datetime" TStr Required unbounded;
  Field "duration_hours" TFloat (Default (VFloat 1.0%Q)) (Bounds None (Some 0%Q) None);
  Field "group_size" (TOptional TInt) (Default VNone) (Bounds (Some 2%Q) None None);
  Field "notes" (TOptional TStr) (Default VNone) unbounded;
  Field "status" (TLiteral ["pending"; "confirmed"; "cancelled"]) (Default (VStr "pending")) unbounded
].

End Schemas.

(** ** Exceptions and the handler monad *)

Inductive exn : Type :=
| HTTPException (status_code : Z) (detail : string)
| RequestValidationError (errors : list Pydantic.verror)
| InvalidId
| StoreError
| AttributeError
| TypeError.

(** ** The store adapter *)

Module Database.

(** Modelled from the spec: the document store behind [database.py] and
    the driver, neither of which is part of the sources.  The store holds
    named collections of documents in insertion order and the next
    identifier it will hand out.  [faults] is the schedule of connection
    failures: each operation on a collection consumes one entry, and
    fails when that entry is [true]; the empty schedule is a store that
    never fails. *)
Record Store : Type := mkStore {
  collections : gmap string (list doc);
  next_oid : Bson.ObjectId;
  faults : list bool
}.

(** The module-level handle [db]: [None], or a connected store. *)
Definition Db : Type := option Store.

Definition M (A : Type) : Type := Db -> result exn A * Db.

Definition ret {A} (a : A) : M A := fun s => (Ok a, s).

Definition raise {A} (e : exn) : M A := fun s => (Err e, s).

Definition bind {A B} (m : M A) (k : A -> M B) : M B :=
  fun s =>
    match m s with
    | (Ok a, s') => k a s'
    | (Err e, s') => (Err e, s')
    end.

(** [try: m except Exception: h] *)
Definition try_except {A} (m : M A) (h : exn -> M A) : M A :=
  fun s =>
    match m s with
    | (Ok a, s') => (Ok a, s')
    | (Err e, s') => h e s'
    end.

Definition get_db : M Db := fun s => (Ok s, s).

End Database.

Declare Scope py_scope.
Delimit Scope py_scope with py.
Notation "x <- m ;; k" := (Database.bind m (fun x => k))
  (at level 100, m at next level, right associativity) : py_scope.
Notation "m ;;; k" := (Database.bind m (fun _ => k))
  (at level 100, right associativity) : py_scope.

Module Driver.
Import Database.
Local Open Scope py_scope.

(** [db[name]]: a collection that was never written to is empty. *)
Definition coll (name : string) (st : Store) : list doc :=
  default [] (collections st !! name).

(** Modelled from the spec: every operation on a collection goes through
    the connection, which may fail.  Subscripting the handle when it is
    [None] is a [TypeError]. *)
Definition connect : M Store :=
  fun s =>
    match s with
    | None => (Err TypeError, None)
    | Some st =>
        match faults st with
        | true :: fs => (Err StoreError, Some (mkStore (collections st) (next_oid st) fs))
        | false :: fs =>
            let st' := mkStore (collections st) (next_oid st) fs in (Ok st', Some st')
        | [] => (Ok st, Some st)
        end
    end.

Definition put (st : Store) : M unit := fun _ => (Ok tt, Some st).

(** Modelled from the spec: a document matches a filter when each field
    the filter names equals the filter's value; the empty filter matches
    every document. *)
Definition matches (flt : gmap string value) (d : doc) : bool :=
  forallb
    (fun kv => match d !! kv.1 with Some w => value_eqb w kv.2 | None => false end)
    (map_to_list flt).

(** Modelled from the spec: [count(collection)], called as
    [db[name].count_documents({})]. *)
Definition count_documents (name : string) : M nat :=
  st <- connect ;;
  ret (length (coll name st)).

(** Modelled from the spec: [db[name].insert_one(d)] persists the document
    under an identifier the store generates. *)
Definition insert_one (name : string) (d : doc) : M Bson.ObjectId :=
  st <- connect ;;
  let oid := next_oid st in
  put (mkStore (<[name := coll name st ++ [<["_id" := VOid oid]> d]]> (collections st))
         (N.succ oid) (faults st)) ;;;
  ret oid.

(** Modelled from the spec: [db[name].find(flt)], every matching document
    in the order the store holds them. *)
Definition find (name : string) (flt : gmap string value) : M (list doc) :=
  st <- connect ;;
  ret (List.filter (matches flt) (coll name st)).

(** Modelled from the spec: [db[name].find_one(flt)], the first matching
    document or [None]. *)
Definition find_one (name : string) (flt : gmap string value) : M (option doc) :=
  st <- connect ;;
  ret (head (List.filter (matches flt) (coll name st))).

End Driver.

Module DatabasePy.
Import Database Driver.
Local Open Scope py_scope.

(** Modelled from the spec: [create_document] of [database.py] is
    [insert(collection, doc)]: it persists the fields of the model and
    returns the store-generated identifier as a string.  Without a
    connection it raises the generic store error. *)
Definition create_document (name : string) (data : doc) : M string :=
  db <- get_db ;;
  match db with
  | None => raise StoreError
  | Some _ =>
      oid <- insert_one name data ;;
      ret (Bson.str oid)
  end.

(** Modelled from the spec: [get_documents] of [database.py] is
    [list(collection, filter_map)]: all documents whose fields equal the
    filter values, in the order the store holds them. *)
Definition get_documents (name : string) (flt : gmap string value) : M (list doc) :=
  db <- get_db ;;
  match db with
  | None => raise StoreError
  | Some _ => find name flt
  end.

End DatabasePy.

(** ** The handlers of [main.py] *)

Module Main.
Import Database Driver DatabasePy.
Local Open Scope py_scope.

Definition lift {A} (r : result exn A) : M A :=
  match r with Ok a => ret a | Err e => raise e end.

(** [for x in l: body(x)] *)
Fixpoint for_each {A} (l : list A) (body : A -> M unit) : M unit :=
  match l with
  | [] => ret tt
  | x :: l' => body x ;;; for_each l' body
  end.

(** [v.lower()]: only strings have the method. *)
Definition py_lower (v : value) : result exn string :=
  match v with
  | VStr s => Ok (PyStr.lower s)
  | _ => Err AttributeError
  end.

(** [d.get(k, dflt)] *)
Definition get (d : doc) (k : string) (dflt : value) : value :=
  default dflt (d !! k).

(** [x or y] *)
Definition py_or (x y : value) : value := if truthy x then x else y.

(** *** Seeding *)

Definition demo_materials : list doc := [
  list_to_map [
    ("title", VStr "Data Structures Reviewer");
    ("description", VStr "Key concepts + sample problems");
    ("course", VStr "Information Technology");
    ("subject", VStr "Data Structures");
    ("type", VStr "Reviewer");
    ("price", VInt 50);
    ("author_name", VStr "Alex Cruz");
    ("university", VStr "Pamantasan ng Lungsod ng Valenzuela");
    ("file_url", VNone);
    ("rating", VFloat 4.9%Q);
    ("downloads", VInt 120)
  ];
  list_to_map [
    ("title", VStr "Circuit Analysis Handout");
    ("description", VStr "Ohm's law to Thevenin");
    ("course", VStr "Electrical Engineering");
    ("subject", VStr "Circuit Analysis");
    ("type", VStr "Handout");
    ("price", VInt 0);
    ("author_name", VStr "J. Dizon");
    ("university", VStr "Pamantasan ng Lungsod ng Valenzuela");
    ("file_url", VNone);
    ("rating", VFloat 4.7%Q);
    ("downloads", VInt 88)
  ]
].

Definition demo_tutors : list doc := [
  list_to_map [
    ("name", VStr "Maria Santos");
    ("course", VStr "Information Technology");
    ("subjects", VList [VStr "Programming 1"; VStr "Data Structures"]);
    ("rate_per_hour", VInt 200);
    ("modes", VList [VStr "One-on-One"; VStr "Group"]);
    ("bio", VStr "3rd year IT student, dean's lister");
    ("availability", VList [VStr "Mon 7-9pm"; VStr "Wed 8-10pm"]);
    ("rating", VFloat 4.9%Q)
  ];
  list_to_map [
    ("name", VStr "Mark Reyes");
    ("course", VStr "Civil Engineering");
    ("subjects", VList [VStr "Statics"; VStr "Strength of Materials"]);
    ("rate_per_hour", VInt 250);
    ("modes", VList [VStr "One-on-One"]);
    ("bio", VStr "Board topnotcher reviewee");
    ("availability", VList [VStr "Sat 2-5pm"]);
    ("rating", VFloat 4.8%Q)
  ]
].

(** The body of the [try] block of [seed_demo]. *)
Definition seed_demo_body : M unit :=
  db <- get_db ;;
  match db with
  | None => ret tt
  | Some _ =>
      n <- count_documents "material" ;;
      (if Nat.eqb n 0
       then for_each demo_materials (fun m => _ <- insert_one "material" m ;; ret tt)
       else ret tt) ;;;
      n <- count_documents "tutor" ;;
      (if Nat.eqb n 0
       then for_each demo_tutors (fun t => _ <- insert_one "tutor" t ;; ret tt)
       else ret tt)
  end.

Definition seed_demo : M unit :=
  try_except seed_demo_body (fun _ => ret tt).

(** *** Materials *)

(** The condition of the comprehension in [list_materials]; [or] does not
    look at the description when the title already matches. *)
Definition material_hit (ql : string) (i : doc) : result exn bool :=
  match py_lower (get i "title" (VStr "")) with
  | Err e => Err e
  | Ok t =>
      if PyStr.contains ql t then Ok true
      else
        match py_lower (py_or (get i "description" VNone) (VStr "")) with
        | Err e => Err e
        | Ok d => Ok (PyStr.contains ql d)
        end
  end.

(** [[i for i in items if p(i)]] with a condition that may raise. *)
Fixpoint comprehension (p : doc -> result exn bool) (items : list doc)
  : result exn (list doc) :=
  match items with
  | [] => Ok []
  | i :: items' =>
      match p i with
      | Err e => Err e
      | Ok b =>
          match comprehension p items' with
          | Err e => Err e
          | Ok rest => Ok (if b then i :: rest else rest)
          end
      end
  end.

Definition items_response (items : list doc) : doc :=
  {[ "items" := VList (VDict <$> items) ]}.

Definition list_materials (course subject q : option string) : M doc :=
  let flt : gmap string value := ∅ in
  let flt :=
    match course with
    | Some c => if PyStr.nonempty c then <["course" := VStr c]> flt else flt
    | None => flt
    end in
  let flt :=
    match subject with
    | Some sb => if PyStr.nonempty sb then <["subject" := VStr sb]> flt else flt
    | None => flt
    end in
  docs <- get_documents "material" flt ;;
  let items := map serialize_doc docs in
  items <-
    match q with
    | Some qs =>
        if PyStr.nonempty qs
        then let ql := PyStr.lower qs in lift (comprehension (material_hit ql) items)
        else ret items
    | None => ret items
    end ;;
  ret (items_response items).

Definition create_material (data : doc) : M doc :=
  inserted_id <- create_document "material" data ;;
  ret {[ "id" := VStr inserted_id ]}.

(** *** Tutors *)

(** [any(sl in s.lower() for s in l)]: stops at the first hit. *)
Fixpoint any_lower (sl : string) (l : list value) : result exn bool :=
  match l with
  | [] => Ok false
  | s :: l' =>
      match py_lower s with
      | Err e => Err e
      | Ok t => if PyStr.contains sl t then Ok true else any_lower sl l'
      end
  end.

Fixpoint chars (s : string) : list value :=
  match s with
  | EmptyString => []
  | String c s' => VStr (String c EmptyString) :: chars s'
  end.

(** What a [for] loop over a value visits: the elements of a list, the
    characters of a string, the keys of a dictionary. *)
Definition iterate (v : value) : result exn (list value) :=
  match v with
  | VList l => Ok l
  | VStr s => Ok (chars s)
  | VDict d => Ok (map (fun kv => VStr kv.1) (map_to_list d))
  | _ => Err TypeError
  end.

Definition tutor_hit (sl : string) (i : doc) : result exn bool :=
  match iterate (get i "subjects" (VList [])) with
  | Err e => Err e
  | Ok l => any_lower sl l
  end.

Definition list_tutors (course subject : option string) : M doc :=
  let flt : gmap string value := ∅ in
  let flt :=
    match course with
    | Some c => if PyStr.nonempty c then <["course" := VStr c]> flt else flt
    | None => flt
    end in
  docs <- get_documents "tutor" flt ;;
  let items := map serialize_doc docs in
  items <-
    match subject with
    | Some sb =>
        if PyStr.nonempty sb
        then let sl := PyStr.lower sb in lift (comprehension (tutor_hit sl) items)
        else ret items
    | None => ret items
    end ;;
  ret (items_response items).

Definition create_tutor (data : doc) : M doc :=
  inserted_id <- create_document "tutor" data ;;
  ret {[ "id" := VStr inserted_id ]}.

(** *** Bookings *)

(** [ObjectId(x)] *)
Definition ObjectId (x : option value) : M Bson.ObjectId :=
  match x with
  | Some (VStr s) =>
      match Bson.parse s with
      | Some oid => ret oid
      | None => raise InvalidId
      end
  | Some _ => raise TypeError
  | None => raise AttributeError
  end.

(** [not tutor] for the result of [find_one]. *)
Definition absent (tutor : option doc) : bool :=
  match tutor with
  | Some t => negb (doc_truthy t)
  | None => true
  end.

(** The truth value of the handle [db] is taken to be [db is not None],
    the test that [seed_demo] spells out. *)
Definition create_booking (data : doc) : M doc :=
  tid <- try_except (ObjectId (data !! "tutor_id"))
           (fun _ => raise (HTTPException 400 "Invalid tutor_id")) ;;
  db <- get_db ;;
  tutor <-
    match db with
    | Some _ => find_one "tutor" {[ "_id" := VOid tid ]}
    | None => ret None
    end ;;
  if absent tutor then raise (HTTPException 404 "Tutor not found")
  else
    inserted_id <- create_document "booking" data ;;
    ret (<["status" := VStr "pending"]> {[ "id" := VStr inserted_id ]}).

End Main.

(** ** Routing: request bodies are validated before the handler runs *)

Module Api.
Import Database Main.

Definition with_body (schema : list Pydantic.field) (handler : doc -> M doc) (body : json)
  : M doc :=
  match Pydantic.validate_payload schema body with
  | Ok data => handler data
  | Err es => raise (RequestValidationError es)
  end.

Definition post_materials : json -> M doc := with_body Schemas.Material create_material.
Definition post_tutors : json -> M doc := with_body Schemas.Tutor create_tutor.
Definition post_bookings : json -> M doc := with_body Schemas.Booking create_booking.

(** The status line of the response to a handler's outcome. *)
Definition status_of (r : result exn doc) : Z :=
  match r with
  | Ok _ => 200
  | Err (HTTPException code _) => code
  | Err (RequestValidationError _) => 422
  | Err _ => 500
  end.

End Api.

(** ** Vocabulary of the specification *)

Module Spec.
Import Pydantic Database Driver Main Api.

(** The three POST endpoints with the schema each one validates against. *)
Definition endpoints : list (list field * (json -> M doc)) := [
  (Schemas.Material, post_materials);
  (Schemas.Tutor, post_tutors);
  (Schemas.Booking, post_bookings)
].

(** The documented enumerations. *)
Definition E_c : list string := [
  "Information Technology"; "Electrical Engineering"; "Civil Engineering";
  "Business Administration"; "Education"; "Nursing"; "Accountancy";
  "Hospitality Management"
].
Definition material_types : list string :=
  ["Reviewer"; "Class Notes"; "Handout"; "Problem Set"; "Cheat Sheet"].
Definition session_modes : list string := ["One-on-One"; "Group"].
Definition booking_statuses : list string := ["pending"; "confirmed"; "cancelled"].

(** The type a schema declares for a field name. *)
Definition field_type (schema : list field) (name : string) : option ftype :=
  ftyp <$> List.find (fun f => String.eqb (fname f) name) schema.

(** A JSON value outside an enumeration: anything but one of its strings. *)
Definition outside (allowed : list string) (j : json) : Prop :=
  forall s, j = JStr s -> ~ In s allowed.

(** The documented defaults of a material. *)
Definition material_defaults : list (string * value) := [
  ("price", VInt 0);
  ("rating", VFloat 4.8%Q);
  ("downloads", VInt 0);
  ("university", VStr "Pamantasan ng Lungsod ng Valenzuela")
].

(** A store on which no operation fails. *)
Definition healthy (db : Db) : Prop :=
  match db with Some st => faults st = [] | None => True end.

(** The documents of a collection as the handle sees them. *)
Definition docs_of (db : Db) (name : string) : list doc :=
  match db with Some st => coll name st | None => [] end.

(** The store after it persisted [d] in collection [name] under the
    identifier it had ready. *)
Definition inserted (name : string) (d : doc) (st : Store) : Store :=
  mkStore (<[name := coll name st ++ [<["_id" := VOid (next_oid st)]> d]]> (collections st))
          (N.succ (next_oid st)) (faults st).

(** Documents as the store holds them after handing out consecutive
    identifiers from [n] on. *)
Fixpoint with_ids (n : Bson.ObjectId) (l : list doc) : list doc :=
  match l with
  | [] => []
  | d :: l' => <["_id" := VOid n]> d :: with_ids (N.succ n) l'
  end.

(** The store after it persisted the documents of [l], one after the
    other, in collection [name]. *)
Fixpoint insert_all (name : string) (l : list doc) (st : Store) : Store :=
  match l with
  | [] => st
  | d :: l' => insert_all name l' (inserted name d st)
  end.

(** The document carries this identifier. *)
Definition has_id (tid : Bson.ObjectId) (d : doc) : bool :=
  match d !! "_id" with
  | Some (VOid o) => (o =? tid)%N
  | _ => false
  end.

(** The field equals the string, when one is asked for. *)
Definition field_is (k : string) (wanted : option string) (d : doc) : bool :=
  match wanted with
  | Some s =>
      if PyStr.nonempty s
      then match d !! k with Some w => value_eqb w (VStr s) | None => false end
      else true
  | None => true
  end.

(** The filter both list handlers build from their [course] argument. *)
Definition course_filter (course : option string) : gmap string value :=
  match course with
  | Some c => if PyStr.nonempty c then <["course" := VStr c]> ∅ else ∅
  | None => ∅
  end.

Definition title_of (d : doc) : string :=
  match d !! "title" with Some (VStr s) => s | _ => "" end.

(** [description or ""] *)
Definition description_of (d : doc) : string :=
  match d !! "description" with Some (VStr s) => s | _ => "" end.

Definition subjects_of (d : doc) : list string :=
  match d !! "subjects" with
  | Some (VList l) => omap (fun v => match v with VStr s => Some s | _ => None end) l
  | _ => []
  end.

(** [lower(q)] is a substring of [lower(title)] or of
    [lower(description or "")]. *)
Definition q_matches (q : string) (d : doc) : bool :=
  PyStr.contains (PyStr.lower q) (PyStr.lower (title_of d))
  || PyStr.contains (PyStr.lower q) (PyStr.lower (description_of d)).

(** Some element of [subjects] contains [lower(subject)], compared
    without regard to case. *)
Definition subject_matches (subject : string) (d : doc) : bool :=
  existsb (fun s => PyStr.contains (PyStr.lower subject) (PyStr.lower s)) (subjects_of d).

(** A stored material as validation leaves it: the title is a string and
    the description a string or [None]. *)
Definition material_shaped (d : doc) : bool :=
  match d !! "title" with Some (VStr _) => true | _ => false end
  && match d !! "description" with
     | None | Some VNone | Some (VStr _) => true
     | _ => false
     end.

Definition is_str (v : value) : bool :=
  match v with VStr _ => true | _ => false end.

(** A stored tutor as validation leaves it: [subjects] is a list of
    strings, when the document has the key. *)
Definition tutor_shaped (d : doc) : bool :=
  match d !! "subjects" with
  | None => true
  | Some (VList l) => forallb is_str l
  | _ => false
  end.

(** Every stored material and tutor has the shape validation gives it. *)
Definition shaped (st : Store) : bool :=
  forallb material_shaped (coll "material" st) && forallb tutor_shaped (coll "tutor" st).


(** Where the first error of a rejected body sits: the body itself, its
    [data] member, or the first field in declaration order that fails. *)
Definition first_offender (schema : list field) (body : json) : list locitem :=
  match body with
  | JObj obj =>
      match obj_get "data" obj with
      | Some (JObj dobj) =>
          match List.find (offending dobj) schema with
          | Some f => [LKey "body"; LKey "data"; LKey (fname f)]
          | None => []
          end
      | _ => [LKey "body"; LKey "data"]
      end
  | _ => [LKey "body"]
  end.

End Spec.

(** ** Sample requests and stores *)

Module Examples.
Import Database Driver Main Api.

(** An empty store after start-up: the four demo documents hold the
    identifiers 1 to 4. *)
Definition empty_store : Store := mkStore ∅ 1%N [].

Definition seeded : Db := snd (seed_demo (Some empty_store)).

Definition seeded_store : Store := default empty_store seeded.

(** Scenario 3 of the specification, with the client asking for the
    status [confirmed]. *)
Definition booking_body (tutor_id : string) : json :=
  JObj [("data", JObj [
    ("tutor_id", JStr tutor_id);
    ("student_name", JStr "X");
    ("student_email", JStr "x@y");
    ("mode", JStr "One-on-One");
    ("session_datetime", JStr "Mon 7pm");
    ("duration_hours", JNum 1.5%Q);
    ("status", JStr "confirmed")])].

Definition validated (schema : list Pydantic.field) (body : json) : doc :=
  match Pydantic.validate_payload schema body with
  | Ok d => d
  | Err _ => ∅
  end.

(** A material that leaves every optional member out. *)
Definition material_members : list (string * json) := [
  ("title", JStr "Thermodynamics Notes");
  ("course", JStr "Electrical Engineering");
  ("subject", JStr "Thermodynamics");
  ("type", JStr "Class Notes");
  ("author_name", JStr "R. Lim")].

Definition material_body : json := JObj [("data", JObj material_members)].


(** A booking that names no student and asks for an unknown mode. *)
Definition bad_booking_body : json :=
  JObj [("data", JObj [("tutor_id", JStr "x"); ("mode", JStr "Solo")])].


(** The values under [key] of the items of a listing. *)
Definition listed (key : string) (r : result exn doc * Db) : list (option value) :=
  match fst r with
  | Ok d =>
      match d !! "items" with
      | Some (VList l) =>
          map (fun v => match v with VDict i => i !! key | _ => None end) l
      | _ => []
      end
  | Err _ => []
  end.


End Examples.

(** ** The diagnostic endpoint ([test_database]) *)

Module Diagnostics.
Import Database Driver.
Local Open Scope py_scope.

(** Modelled from the spec: [list_collection_names()], the names of the
    collections the store holds. *)
Definition list_collection_names : M (list string) :=
  st <- connect ;;
  ret (map fst (map_to_list (collections st))).

Section Probe.

(** [os.getenv], the attribute [db.name] (or the fallback of [getattr]) and
    [str(e)] are taken as given. *)
Variable getenv : string -> option string.
Variable name_of : Store -> value.
Variable str_exn : exn -> string.

(** Truth value of [os.getenv(k)]: unset and empty are both falsy. *)
Definition env_set (k : string) : bool :=
  match getenv k with
  | Some s => PyStr.nonempty s
  | None => false
  end.

(** The dictionary [response] as first built. *)
Definition initial_response : doc :=
  list_to_map [
    ("backend", VStr "✅ Running");
    ("database", VStr "❌ Not Available");
    ("database_url", VNone);
    ("database_name", VNone);
    ("connection_status", VStr "Not Connected");
    ("collections", VList [])
  ].

(** The outer [try] block.  Its only statement that can raise is the call
    to the driver, which the inner [try] guards; the outer handler is kept
    as written.  [str(e)[:50]] is the first fifty characters of the
    message, which are bytes here. *)
Definition probe (response : doc) : M doc :=
  try_except
    (db <- get_db ;;
     match db with
     | Some st =>
         let response := <["database" := VStr "✅ Available"]> response in
         let response := <["database_url" := VStr "✅ Configured"]> response in
         let response := <["database_name" := name_of st]> response in
         let response := <["connection_status" := VStr "Connected"]> response in
         try_except
           (collections <- list_collection_names ;;
            let response :=
              <["collections" := VList (VStr <$> firstn 10 collections)]> response in
            ret (<["database" := VStr "✅ Connected & Working"]> response))
           (fun e =>
              ret (<["database" :=
                       VStr ("⚠️  Connected but Error: " ++ String.substring 0 50 (str_exn e))]>
                     response))
     | None =>
         ret (<["database" := VStr "⚠️  Available but not initialized"]> response)
     end)
    (fun e =>
       ret (<["database" := VStr ("❌ Error: " ++ String.substring 0 50 (str_exn e))]>
              response)).

Definition test_database : M doc :=
  response <- probe initial_response ;;
  let response :=
    <["database_url" :=
        VStr (if env_set "DATABASE_URL" then "✅ Set" else "❌ Not Set")]> response in
  let response :=
    <["database_name" :=
        VStr (if env_set "DATABASE_NAME" then "✅ Set" else "❌ Not Set")]> response in
  ret response.

End Probe.

End Diagnostics.

(** ** Vocabulary for what handlers leave alone *)

Module Frames.
Import Database Driver Spec.

(** The document carries an [ObjectId] under [_id]. *)
Definition carries_oid (d : doc) : bool :=
  match d !! "_id" with
  | Some (VOid _) => true
  | _ => false
  end.

(** Between two states of the handle every collection only gained
    documents at its end, and the collections outside [names] gained none.
    A handle that is [None] stays [None]. *)
Definition grows (names : list string) (s s' : Db) : Prop :=
  match s, s' with
  | None, None => True
  | Some st, Some st' =>
      forall n : string,
        exists l : list doc,
          coll n st' = coll n st ++ l /\ (~ In n names -> l = [])
  | _, _ => False
  end.

(** A computation keeps a relation between the state it starts in and the
    state it ends in, whatever it returns or raises. *)
Definition preserves {A} (R : Db -> Db -> Prop) (m : M A) : Prop :=
  forall s : Db, R s (snd (m s)).

(** The booking names a tutor among [tutors]. *)
Definition references_tutor (tutors : list doc) (b : doc) : bool :=
  match b !! "tutor_id" with
  | Some (VStr s) =>
      match Bson.parse s with
      | Some tid => existsb (has_id tid) tutors
      | None => false
      end
  | _ => false
  end.

(** Every stored booking names a stored tutor. *)
Definition referential (db : Db) : bool :=
  forallb (references_tutor (docs_of db "tutor")) (docs_of db "booking").





(** A body that wraps the members of a resource under [data]. *)
Definition envelope (members : list (string * json)) : json :=
  JObj [("data", JObj members)].

End Frames.

(** ** More sample requests *)

Module Samples.
Import Database Driver Main Api.







(** A material whose title was stored as [None]. *)
Definition untitled_material : doc :=
  list_to_map [
    ("_id", VOid 7%N);
    ("title", VNone);
    ("description", VStr "Loose pages");
    ("course", VStr "Nursing");
    ("subject", VStr "Anatomy")].

Definition untitled_store : Store :=
  mkStore {[ "material" := [untitled_material] ]} 8%N [].

(** An environment that sets [DATABASE_URL] and leaves [DATABASE_NAME]
    empty. *)
Definition sample_env (k : string) : option string :=
  if String.eqb k "DATABASE_URL" then Some "mongodb://localhost"
  else if String.eqb k "DATABASE_NAME" then Some ""
  else None.

Definition student_name_field : Pydantic.field :=
  Pydantic.Field "student_name" Pydantic.TStr Pydantic.Required Pydantic.unbounded.

End Samples.

(** * Properties *)

(** ** Strings and identifiers *)

Section StringFacts.

Lemma contains_empty (s : string) : PyStr.contains "" s = true.
Proof. destruct s; reflexivity. Qed.

Lemma nonempty_false (s : string) : PyStr.nonempty s = false -> s = "".
Proof. destruct s; [reflexivity | discriminate]. Qed.

Lemma hex_render_length (k : nat) (n : N) (acc : string) :
  String.length (Bson.hex_render k n acc) = (k + String.length acc)%nat.
Proof.
  revert n acc; induction k as [|k IH]; intros n acc; simpl; [reflexivity|].
  rewrite IH; simpl; lia.
Qed.

Lemma str_length (o : Bson.ObjectId) : String.length (Bson.str o) = 24%nat.
Proof. unfold Bson.str; rewrite hex_render_length; reflexivity. Qed.


End StringFacts.

(** ** Documents *)

Section DocFacts.

Lemma doc_truthy_lookup (d : doc) (k : string) (v : value) :
  d !! k = Some v -> doc_truthy d = true.
Proof.
  intros H; unfold doc_truthy.
  destruct (Nat.eqb (size d) 0) eqn:E; [|reflexivity].
  apply Nat.eqb_eq, map_size_empty_iff in E; subst d.
  rewrite lookup_empty in H; discriminate H.
Qed.

Lemma serialize_doc_oid (d : doc) (o : Bson.ObjectId) :
  d !! "_id" = Some (VOid o) ->
  serialize_doc d = delete "_id" (<["id" := VStr (Bson.str o)]> d).
Proof.
  intros H; unfold serialize_doc.
  rewrite (doc_truthy_lookup _ _ _ H); simpl; rewrite H; reflexivity.
Qed.

(** Serialisation never touches a key other than the two identifier keys. *)
Lemma serialize_doc_frame (d : doc) (k : string) :
  k <> "_id" -> k <> "id" -> serialize_doc d !! k = d !! k.
Proof.
  intros H1 H2; unfold serialize_doc.
  destruct (negb (doc_truthy d)); [reflexivity|].
  destruct (d !! "_id") as [[]|] eqn:E; try reflexivity.
  rewrite lookup_delete_ne by congruence.
  rewrite lookup_insert_ne by congruence; reflexivity.
Qed.

End DocFacts.

(** C7. A document that carries the store's identifier under [_id] is
    serialised without the key [_id], with the key [id] holding the
    identifier rendered as a string of 24 characters, and with every other
    key bound to the value it had. *)
Theorem serialize_doc_renames_identifier (d : doc) (o : Bson.ObjectId) :
  d !! "_id" = Some (VOid o) ->
  serialize_doc d !! "_id" = None /\
  serialize_doc d !! "id" = Some (VStr (Bson.str o)) /\
  String.length (Bson.str o) = 24%nat /\
  (forall k : string, k <> "_id" -> k <> "id" -> serialize_doc d !! k = d !! k).
Proof.
  intros H; rewrite (serialize_doc_oid d o H).
  split; [|split; [|split]].
  - apply lookup_delete_eq.
  - rewrite lookup_delete_ne by discriminate. apply lookup_insert_eq.
  - apply str_length.
  - intros k H1 H2. rewrite <- (serialize_doc_oid d o H).
    apply serialize_doc_frame; assumption.
Qed.

Lemma serialize_doc_renames_identifier_witness :
  let d : doc := <["_id" := VOid 255%N]> {[ "title" := VStr "Notes" ]} in
  serialize_doc d !! "_id" = None /\
  serialize_doc d !! "id" = Some (VStr "0000000000000000000000ff") /\
  String.length (Bson.str 255%N) = 24%nat /\
  (forall k : string, k <> "_id" -> k <> "id" -> serialize_doc d !! k = d !! k).
Proof.
  exact (serialize_doc_renames_identifier
           (<["_id" := VOid 255%N]> {[ "title" := VStr "Notes" ]}) 255%N eq_refl).
Defined.

(** ** Validation *)

Section ValidationFacts.
Import Pydantic.

Lemma coerce_items_nonempty (f : json -> vresult) :
  (forall j es, f j = Err es -> es <> []) ->
  forall l i es, coerce_items f i l = Err es -> es <> [].
Proof.
  intros Hf l; induction l as [|j l IH]; intros i es; simpl; [discriminate|].
  destruct (f j) as [v|e] eqn:Ej; destruct (coerce_items f (S i) l) as [vs|es'] eqn:El;
    intros [= <-].
  - eapply IH; eassumption.
  - specialize (Hf _ _ Ej). destruct e; [congruence | discriminate].
  - specialize (Hf _ _ Ej). destruct e; [congruence | discriminate].
Qed.

Lemma coerce_nonempty (t : ftype) :
  forall j es, coerce t j = Err es -> es <> [].
Proof.
  induction t as [| | |allowed|t IH|t IH]; intros j es; simpl.
  - destruct j; intros [= <-]; discriminate.
  - destruct j; intros [= <-]; discriminate.
  - destruct j; try (intros [= <-]; discriminate).
    destruct (integral q); intros [= <-]; discriminate.
  - destruct j; try (intros [= <-]; discriminate).
    destruct (str_in s allowed); intros [= <-]; discriminate.
  - destruct j; try discriminate; apply IH.
  - destruct j; try (intros [= <-]; discriminate).
    destruct (coerce_items (coerce t) 0 l) as [vs|es'] eqn:E; intros [= <-].
    eapply coerce_items_nonempty; eassumption.
Qed.

(** An element outside what its type admits fails the whole list. *)
Lemma coerce_items_reject (f : json -> vresult) (j : json) :
  is_ok (f j) = false ->
  forall l i, In j l -> is_ok (coerce_items f i l) = false.
Proof.
  intros Hj l; induction l as [|x l IH]; intros i; simpl; [tauto|].
  intros [->|Hin].
  - destruct (f j); [discriminate|].
    destruct (coerce_items f (S i) l); reflexivity.
  - specialize (IH (S i) Hin).
    destruct (coerce_items f (S i) l); [discriminate|].
    destruct (f x); reflexivity.
Qed.

(** The errors of a field are never empty and all sit under its name. *)
Lemma validate_field_errors (f : field) (obj : list (string * json)) (es : list verror) :
  validate_field f obj = Err es ->
  exists e rest, es = at_loc (LKey (fname f)) e :: rest.
Proof.
  unfold validate_field.
  destruct (obj_get (fname f) obj) as [j|].
  - destruct (coerce (ftyp f) j) as [v|ces] eqn:Ec.
    + destruct (check_bounds (fbounds f) v) as [v'|bes] eqn:Eb; [discriminate|].
      intros [= <-].
      assert (exists e, bes = [e]) as [e ->].
      { unfold check_bounds in Eb.
        destruct v; try discriminate;
          (destruct (violates _ _); [injection Eb as <-; eauto | discriminate]). }
      simpl; eauto.
    + intros [= <-]. pose proof (coerce_nonempty _ _ _ Ec) as Hne.
      destruct ces as [|e rest]; [congruence|]. simpl; eauto.
  - destruct (fdef f); [|discriminate].
    intros [= <-]. exists (VError [] missing), []. reflexivity.
Qed.

(** The collected errors start with those of the first field, in
    declaration order, that fails. *)
Lemma validate_fields_first (fs : list field) (obj : list (string * json)) :
  match find (offending obj) fs with
  | None => snd (validate_fields fs obj) = []
  | Some f =>
      exists e1 rest,
        validate_field f obj = Err e1 /\ snd (validate_fields fs obj) = e1 ++ rest
  end.
Proof.
  induction fs as [|a fs IH]; simpl; [reflexivity|].
  unfold offending at 1.
  destruct (validate_fields fs obj) as [d es].
  destruct (validate_field a obj) as [v|e] eqn:Ea; simpl.
  - exact IH.
  - exists e, es; split; [first [exact Ea | reflexivity] | reflexivity].
Qed.

Lemma validate_fields_get (fs : list field) (obj : list (string * json)) :
  NoDup (map fname fs) ->
  forall f v, In f fs -> validate_field f obj = Ok v ->
    fst (validate_fields fs obj) !! fname f = Some v.
Proof.
  induction fs as [|a fs IH]; simpl; [tauto|].
  intros Hnd f v Hin Hok.
  apply NoDup_cons in Hnd as [Hna Hnd].
  destruct (validate_fields fs obj) as [d es] eqn:Efs; simpl in IH.
  destruct Hin as [->|Hin].
  - rewrite Hok; simpl. apply lookup_insert_eq.
  - assert (fname a <> fname f) as Hne.
    { intros Heq. apply Hna. rewrite Heq.
      apply list_elem_of_In, in_map, Hin. }
    destruct (validate_field a obj); simpl.
    + rewrite lookup_insert_ne by exact Hne. eapply IH; eassumption.
    + eapply IH; eassumption.
Qed.

Lemma validate_payload_ok (fs : list field) (body : json) (data : doc) :
  validate_payload fs body = Ok data ->
  exists dobj, payload_members body = Some dobj /\ validate_fields fs dobj = (data, []).
Proof.
  unfold validate_payload, payload_members, validate_model.
  destruct body as [| | | | |obj]; try discriminate.
  destruct (obj_get "data" obj) as [[| | | | |dobj]|]; try discriminate.
  destruct (validate_fields fs dobj) as [d [|e es]] eqn:E; [|discriminate].
  intros [= <-]. eauto.
Qed.

Lemma validate_payload_get (fs : list field) (body : json) (data : doc)
      (dobj : list (string * json)) :
  NoDup (map fname fs) ->
  validate_payload fs body = Ok data ->
  payload_members body = Some dobj ->
  forall f, In f fs ->
    exists v, validate_field f dobj = Ok v /\ data !! fname f = Some v.
Proof.
  intros Hnd Hv Hm f Hin.
  destruct (validate_payload_ok _ _ _ Hv) as (dobj' & Hm' & Hfs).
  rewrite Hm in Hm'; injection Hm' as <-.
  pose proof (validate_fields_first fs dobj) as Hfirst.
  rewrite Hfs in Hfirst; simpl in Hfirst.
  destruct (validate_field f dobj) as [v|e] eqn:Ef.
  - exists v; split; [reflexivity|].
    pose proof (validate_fields_get fs dobj Hnd f v Hin Ef) as Hg.
    rewrite Hfs in Hg; exact Hg.
  - exfalso.
    destruct (find (offending dobj) fs) as [g|] eqn:Eg.
    + destruct Hfirst as (e1 & rest & Hg & Happ).
      destruct (validate_field_errors _ _ _ Hg) as (e0 & r0 & ->).
      discriminate Happ.
    + eapply find_none in Eg; [|exact Hin].
      unfold offending in Eg. rewrite Ef in Eg. discriminate Eg.
Qed.

(** A failing field fails the payload. *)
Lemma validate_payload_reject (fs : list field) (body : json)
      (dobj : list (string * json)) (f : field) :
  payload_members body = Some dobj ->
  In f fs ->
  is_ok (validate_field f dobj) = false ->
  is_ok (validate_payload fs body) = false.
Proof.
  intros Hm Hin Hf.
  unfold payload_members in Hm. unfold validate_payload, validate_model.
  destruct body as [| | | | |obj]; try discriminate.
  destruct (obj_get "data" obj) as [[| | | | |dobj']|]; try discriminate.
  injection Hm as ->.
  pose proof (validate_fields_first fs dobj) as Hfirst.
  destruct (find (offending dobj) fs) as [g|] eqn:Eg.
  - destruct Hfirst as (e1 & rest & Hg & Happ).
    destruct (validate_field_errors _ _ _ Hg) as (e0 & r0 & ->).
    destruct (validate_fields fs dobj) as [d es]; simpl in Happ; subst es.
    reflexivity.
  - eapply find_none in Eg; [|exact Hin].
    unfold offending in Eg. rewrite Hf in Eg. discriminate Eg.
Qed.

End ValidationFacts.

(** ** Running handlers against a healthy store *)

Section RunFacts.
Import Database Driver DatabasePy Main Api Spec.

Variable st : Store.
Hypothesis Hst : faults st = [].

Lemma connect_healthy : connect (Some st) = (Ok st, Some st).
Proof. unfold connect; rewrite Hst; reflexivity. Qed.

Lemma count_documents_healthy (name : string) :
  count_documents name (Some st) = (Ok (length (coll name st)), Some st).
Proof. unfold count_documents, bind; rewrite connect_healthy; reflexivity. Qed.

Lemma insert_one_healthy (name : string) (d : doc) :
  insert_one name d (Some st) = (Ok (next_oid st), Some (inserted name d st)).
Proof. unfold insert_one, bind; rewrite connect_healthy; reflexivity. Qed.

Lemma find_healthy (name : string) (flt : gmap string value) :
  find name flt (Some st) = (Ok (List.filter (matches flt) (coll name st)), Some st).
Proof. unfold find, bind; rewrite connect_healthy; reflexivity. Qed.

Lemma find_one_healthy (name : string) (flt : gmap string value) :
  find_one name flt (Some st)
  = (Ok (head (List.filter (matches flt) (coll name st))), Some st).
Proof. unfold find_one, bind; rewrite connect_healthy; reflexivity. Qed.

Lemma create_document_healthy (name : string) (d : doc) :
  create_document name d (Some st)
  = (Ok (Bson.str (next_oid st)), Some (inserted name d st)).
Proof.
  unfold create_document, bind, get_db; simpl.
  rewrite insert_one_healthy; reflexivity.
Qed.

Lemma get_documents_healthy (name : string) (flt : gmap string value) :
  get_documents name flt (Some st)
  = (Ok (List.filter (matches flt) (coll name st)), Some st).
Proof.
  unfold get_documents, bind, get_db; simpl. apply find_healthy.
Qed.

End RunFacts.

Section StoreFacts.
Import Database Driver Spec.

Lemma coll_inserted_same (name : string) (d : doc) (st : Store) :
  coll name (inserted name d st) = coll name st ++ [<["_id" := VOid (next_oid st)]> d].
Proof. unfold coll at 1, inserted; simpl. rewrite lookup_insert_eq; reflexivity. Qed.

Lemma coll_inserted_other (name other : string) (d : doc) (st : Store) :
  name <> other -> coll other (inserted name d st) = coll other st.
Proof.
  intros H; unfold coll, inserted; simpl. rewrite lookup_insert_ne by exact H; reflexivity.
Qed.

Lemma matches_spec (flt : gmap string value) (d : doc) :
  matches flt d = true <->
  forall k v, flt !! k = Some v -> exists w, d !! k = Some w /\ value_eqb w v = true.
Proof.
  unfold matches; rewrite forallb_forall; split.
  - intros H k v Hkv.
    specialize (H (k, v)); simpl in H.
    destruct (d !! k) as [w|].
    + exists w; split; [reflexivity|]. apply H, list_elem_of_In, elem_of_map_to_list, Hkv.
    + discriminate H. apply list_elem_of_In, elem_of_map_to_list, Hkv.
  - intros H [k v] Hin; simpl.
    apply list_elem_of_In, elem_of_map_to_list in Hin.
    destruct (H k v Hin) as (w & -> & Hw). exact Hw.
Qed.

Lemma matches_id (tid : Bson.ObjectId) (d : doc) :
  matches {[ "_id" := VOid tid ]} d = has_id tid d.
Proof.
  unfold matches, has_id. rewrite map_to_list_singleton; simpl.
  destruct (d !! "_id") as [[]|]; simpl; rewrite ?andb_true_r; reflexivity.
Qed.

Lemma head_filter_none {A} (p : A -> bool) (l : list A) :
  existsb p l = false -> head (List.filter p l) = None.
Proof.
  induction l as [|x l IH]; simpl; [reflexivity|].
  destruct (p x); simpl; [discriminate | exact IH].
Qed.

Lemma head_filter_some {A} (p : A -> bool) (l : list A) :
  existsb p l = true -> exists x, head (List.filter p l) = Some x /\ p x = true.
Proof.
  induction l as [|x l IH]; simpl; [discriminate|].
  destruct (p x) eqn:E; simpl; [eauto | exact IH].
Qed.

End StoreFacts.

(** ** Bookings *)

Section BookingFacts.
Import Pydantic Database Driver DatabasePy Main Api Spec.

Lemma Booking_names_nodup : NoDup (map fname Schemas.Booking).
Proof. apply (bool_decide_unpack _). vm_compute. exact I. Qed.

Lemma validated_str (name : string) (dobj : list (string * json)) (v : value) :
  validate_field (Field name TStr Required unbounded) dobj = Ok v ->
  exists s, obj_get name dobj = Some (JStr s) /\ v = VStr s.
Proof.
  unfold validate_field; simpl.
  destruct (obj_get name dobj) as [[]|]; simpl; try discriminate.
  intros [= <-]; eauto.
Qed.


Lemma absent_found (tid : Bson.ObjectId) (d : doc) :
  has_id tid d = true -> absent (Some d) = false.
Proof.
  unfold has_id, absent; intros H.
  destruct (d !! "_id") as [v|] eqn:E; [|discriminate].
  rewrite (doc_truthy_lookup _ _ _ E); reflexivity.
Qed.

(** The three outcomes of [create_booking] on validated data. *)
Lemma create_booking_cases (data : doc) (db : Db) (tutor_id : string) :
  healthy db ->
  data !! "tutor_id" = Some (VStr tutor_id) ->
  match Bson.parse tutor_id with
  | None =>
      create_booking data db = (Err (HTTPException 400 "Invalid tutor_id"), db)
  | Some tid =>
      if existsb (has_id tid) (docs_of db "tutor")
      then
        exists st, db = Some st /\
          create_booking data db
          = (Ok (<["status" := VStr "pending"]> {[ "id" := VStr (Bson.str (next_oid st)) ]}),
             Some (inserted "booking" data st))
      else
        create_booking data db = (Err (HTTPException 404 "Tutor not found"), db)
  end.
Proof.
  intros Hh Hd.
  unfold create_booking, bind, try_except, ObjectId. rewrite Hd.
  destruct (Bson.parse tutor_id) as [tid|]; [|reflexivity].
  destruct db as [st|]; simpl; [|reflexivity].
  simpl in Hh. rewrite (find_one_healthy st Hh).
  rewrite (List.filter_ext _ _ (matches_id tid)).
  destruct (existsb (has_id tid) (coll "tutor" st)) eqn:E.
  - destruct (head_filter_some _ _ E) as (x & -> & Hx).
    rewrite (absent_found _ _ Hx).
    exists st; split; [reflexivity|].
    rewrite (create_document_healthy st Hh); reflexivity.
  - rewrite (head_filter_none _ _ E); reflexivity.
Qed.

End BookingFacts.



Section BookingStatus.
Import Pydantic Database Driver DatabasePy Main Api Spec.


End BookingStatus.



(** ** Rejected bodies *)

Section RejectionFacts.
Import Pydantic Database Main Api Spec.


Lemma with_body_reject (fs : list field) (handler : doc -> M doc) (body : json)
      (db : Db) (es : list verror) :
  validate_payload fs body = Err es ->
  with_body fs handler body db = (Err (RequestValidationError es), db).
Proof. intros H; unfold with_body; rewrite H; reflexivity. Qed.

Lemma endpoint_is_with_body (schema : list field) (post : json -> M doc) :
  In (schema, post) endpoints -> exists handler, post = with_body schema handler.
Proof.
  simpl; intros [H|[H|[H|[]]]]; injection H as <- <-; eexists; reflexivity.
Qed.

Lemma coerce_list_reject (t : ftype) (l : list json) :
  is_ok (coerce_items (coerce t) 0 l) = false ->
  is_ok (coerce (TList t) (JArr l)) = false.
Proof. simpl; destruct (coerce_items (coerce t) 0 l); [discriminate|reflexivity]. Qed.

Lemma literal_reject (allowed : list string) (j : json) :
  outside allowed j -> is_ok (coerce (TLiteral allowed) j) = false.
Proof.
  intros Hout; simpl. destruct j; try reflexivity.
  destruct (str_in s allowed) eqn:E; [|reflexivity].
  exfalso. unfold str_in in E. apply existsb_exists in E as (x & Hx & Heq).
  apply String.eqb_eq in Heq; subst x. exact (Hout s eq_refl Hx).
Qed.

(** A member outside its enumeration fails its field. *)
Lemma literal_field_reject (f : field) (allowed : list string)
      (dobj : list (string * json)) (j : json) :
  ftyp f = TLiteral allowed ->
  obj_get (fname f) dobj = Some j ->
  outside allowed j ->
  is_ok (validate_field f dobj) = false.
Proof.
  intros Ht Hj Hout; unfold validate_field; rewrite Hj, Ht.
  pose proof (literal_reject _ _ Hout) as H.
  destruct (coerce (TLiteral allowed) j); [discriminate H|reflexivity].
Qed.

Lemma literal_list_field_reject (f : field) (allowed : list string)
      (dobj : list (string * json)) (l : list json) (j : json) :
  ftyp f = TList (TLiteral allowed) ->
  obj_get (fname f) dobj = Some (JArr l) ->
  In j l ->
  outside allowed j ->
  is_ok (validate_field f dobj) = false.
Proof.
  intros Ht Hl Hin Hout; unfold validate_field; rewrite Hl, Ht.
  pose proof (coerce_list_reject _ _
                (coerce_items_reject _ _ (literal_reject _ _ Hout) l 0%nat Hin)) as H.
  destruct (coerce (TList (TLiteral allowed)) (JArr l)); [discriminate H|reflexivity].
Qed.

Lemma literal_accepts (allowed : list string) (s : string) :
  In s allowed -> coerce (TLiteral allowed) (JStr s) = Ok (VStr s).
Proof.
  intros Hin; simpl.
  assert (str_in s allowed = true) as ->; [|reflexivity].
  unfold str_in. apply existsb_exists. exists s; split; [exact Hin|apply String.eqb_refl].
Qed.

(** A body with a failing field is answered 422 and the store is left as
    it was. *)
Lemma endpoint_reject (schema : list field) (post : json -> M doc) (body : json)
      (dobj : list (string * json)) (f : field) (db : Db) :
  In (schema, post) endpoints ->
  payload_members body = Some dobj ->
  In f schema ->
  is_ok (validate_field f dobj) = false ->
  exists es, post body db = (Err (RequestValidationError es), db) /\
             status_of (fst (post body db)) = 422%Z.
Proof.
  intros He Hm Hf Hbad.
  destruct (endpoint_is_with_body _ _ He) as (handler & ->).
  pose proof (validate_payload_reject schema body dobj f Hm Hf Hbad) as Hrej.
  destruct (validate_payload schema body) as [d|es] eqn:Hv; [discriminate|].
  exists es. rewrite (with_body_reject _ _ _ _ _ Hv). split; reflexivity.
Qed.

End RejectionFacts.


(** C2. The schemas declare the documented enumerations for course,
    material type, session mode and booking status.  On each endpoint a
    body whose member for an enumerated field lies outside the enumeration
    (for the list of modes: has an element outside it) is answered 422 and
    the store is left as it was, and a string of the enumeration passes the
    membership check. *)
Theorem enumerations_are_closed :
  (Spec.field_type Schemas.Material "course" = Some (Pydantic.TLiteral Spec.E_c) /\
   Spec.field_type Schemas.Material "type" = Some (Pydantic.TLiteral Spec.material_types) /\
   Spec.field_type Schemas.Tutor "course" = Some (Pydantic.TLiteral Spec.E_c) /\
   Spec.field_type Schemas.Tutor "modes"
   = Some (Pydantic.TList (Pydantic.TLiteral Spec.session_modes)) /\
   Spec.field_type Schemas.Booking "mode" = Some (Pydantic.TLiteral Spec.session_modes) /\
   Spec.field_type Schemas.Booking "status" = Some (Pydantic.TLiteral Spec.booking_statuses)) /\
  (forall schema post f allowed body dobj j db,
      In (schema, post) Spec.endpoints ->
      In f schema ->
      Pydantic.ftyp f = Pydantic.TLiteral allowed ->
      Pydantic.payload_members body = Some dobj ->
      obj_get (Pydantic.fname f) dobj = Some j ->
      Spec.outside allowed j ->
      exists es, post body db = (Err (RequestValidationError es), db) /\
                 Api.status_of (fst (post body db)) = 422%Z) /\
  (forall schema post f allowed body dobj l j db,
      In (schema, post) Spec.endpoints ->
      In f schema ->
      Pydantic.ftyp f = Pydantic.TList (Pydantic.TLiteral allowed) ->
      Pydantic.payload_members body = Some dobj ->
      obj_get (Pydantic.fname f) dobj = Some (JArr l) ->
      In j l ->
      Spec.outside allowed j ->
      exists es, post body db = (Err (RequestValidationError es), db) /\
                 Api.status_of (fst (post body db)) = 422%Z) /\
  (forall allowed s,
      In s allowed ->
      Pydantic.coerce (Pydantic.TLiteral allowed) (JStr s) = Ok (VStr s)).
Proof.
  split; [repeat split; reflexivity|].
  split; [|split].
  - intros schema post f allowed body dobj j db He Hf Ht Hm Hj Hout.
    eapply endpoint_reject; try eassumption.
    eapply literal_field_reject; eassumption.
  - intros schema post f allowed body dobj l j db He Hf Ht Hm Hl Hin Hout.
    eapply endpoint_reject; try eassumption.
    eapply literal_list_field_reject; eassumption.
  - exact literal_accepts.
Qed.


(** ** Materials *)

Section MaterialFacts.
Import Pydantic Database Driver DatabasePy Main Api Spec.

Lemma Material_names_nodup : NoDup (map fname Schemas.Material).
Proof. apply (bool_decide_unpack _). vm_compute. exact I. Qed.





Lemma check_bounds_same (b : bounds) (v v' : value) :
  check_bounds b v = Ok v' -> v' = v.
Proof.
  unfold check_bounds; destruct v; try (intros [= <-]; reflexivity);
    destruct (violates _ _); try discriminate; intros [= <-]; reflexivity.
Qed.


Lemma validate_field_default (f : field) (dobj : list (string * json)) (v d : value) :
  obj_get (fname f) dobj = None ->
  fdef f = Default d ->
  validate_field f dobj = Ok v ->
  v = d.
Proof.
  unfold validate_field; intros -> ->. intros [= <-]; reflexivity.
Qed.

Lemma post_materials_healthy (body : json) (data : doc) (st : Store) :
  faults st = [] ->
  validate_payload Schemas.Material body = Ok data ->
  post_materials body (Some st)
  = (Ok {[ "id" := VStr (Bson.str (next_oid st)) ]}, Some (inserted "material" data st)).
Proof.
  intros Hst Hv. unfold post_materials, with_body; rewrite Hv.
  unfold create_material, bind. rewrite (create_document_healthy st Hst). reflexivity.
Qed.

End MaterialFacts.

(** C5. A material posted without [price], [rating], [downloads] or
    [university] is inserted with the documented default under each key it
    left out: 0, 4.8, 0 and the name of the university. *)
Theorem material_defaults_before_insertion
        (body : json) (dobj : list (string * json)) (data : doc) (st : Database.Store) :
  Database.faults st = [] ->
  Pydantic.validate_payload Schemas.Material body = Ok data ->
  Pydantic.payload_members body = Some dobj ->
  Api.post_materials body (Some st)
  = (Ok {[ "id" := VStr (Bson.str (Database.next_oid st)) ]},
     Some (Spec.inserted "material" data st)) /\
  exists stored : doc,
    Driver.coll "material" (Spec.inserted "material" data st)
    = Driver.coll "material" st ++ [stored] /\
    forall k v,
      In (k, v) Spec.material_defaults ->
      obj_get k dobj = None ->
      data !! k = Some v /\ stored !! k = Some v.
Proof.
  intros Hst Hv Hm.
  split; [exact (post_materials_healthy body data st Hst Hv)|].
  exists (<["_id" := VOid (Database.next_oid st)]> data).
  split; [apply coll_inserted_same|].
  assert (forall f d,
             In f Schemas.Material -> Pydantic.fdef f = Pydantic.Default d ->
             obj_get (Pydantic.fname f) dobj = None ->
             data !! Pydantic.fname f = Some d) as Hdef.
  { intros f d Hin Hd Hnone.
    destruct (validate_payload_get _ _ _ _ Material_names_nodup Hv Hm f Hin) as (w & Hf & Hw).
    rewrite Hw. f_equal. exact (validate_field_default f dobj w d Hnone Hd Hf). }
  intros k v Hin Hnone.
  assert (data !! k = Some v) as Hk.
  { simpl in Hin. destruct Hin as [H|[H|[H|[H|[]]]]]; injection H as <- <-.
    - apply (Hdef (Pydantic.Field "price" Pydantic.TFloat (Pydantic.Default (VInt 0))
                     (Pydantic.Bounds (Some 0%Q) None None)));
        [simpl; tauto | reflexivity | exact Hnone].
    - apply (Hdef (Pydantic.Field "rating" (Pydantic.TOptional Pydantic.TFloat)
                     (Pydantic.Default (VFloat 4.8%Q))
                     (Pydantic.Bounds (Some 0%Q) None (Some 5%Q))));
        [simpl; tauto | reflexivity | exact Hnone].
    - apply (Hdef (Pydantic.Field "downloads" (Pydantic.TOptional Pydantic.TInt)
                     (Pydantic.Default (VInt 0)) (Pydantic.Bounds (Some 0%Q) None None)));
        [simpl; tauto | reflexivity | exact Hnone].
    - apply (Hdef (Pydantic.Field "university" Pydantic.TStr
                     (Pydantic.Default (VStr "Pamantasan ng Lungsod ng Valenzuela"))
                     Pydantic.unbounded));
        [simpl; tauto | reflexivity | exact Hnone]. }
  split; [exact Hk|].
  rewrite lookup_insert_ne; [exact Hk|].
  simpl in Hin. destruct Hin as [H|[H|[H|[H|[]]]]]; injection H as <- <-; discriminate.
Qed.

Lemma material_defaults_before_insertion_witness :
  Api.post_materials Examples.material_body (Some Examples.seeded_store)
  = (Ok {[ "id" := VStr (Bson.str (Database.next_oid Examples.seeded_store)) ]},
     Some (Spec.inserted "material"
             (Examples.validated Schemas.Material Examples.material_body)
             Examples.seeded_store)) /\
  exists stored : doc,
    Driver.coll "material"
      (Spec.inserted "material" (Examples.validated Schemas.Material Examples.material_body)
         Examples.seeded_store)
    = Driver.coll "material" Examples.seeded_store ++ [stored] /\
    forall k v,
      In (k, v) Spec.material_defaults ->
      obj_get k Examples.material_members = None ->
      Examples.validated Schemas.Material Examples.material_body !! k = Some v /\
      stored !! k = Some v.
Proof.
  apply (material_defaults_before_insertion
           Examples.material_body Examples.material_members
           (Examples.validated Schemas.Material Examples.material_body)
           Examples.seeded_store).
  - vm_compute. reflexivity.
  - vm_compute. reflexivity.
  - reflexivity.
Defined.

(** ** Listing *)

Section ListingFacts.
Import Database Driver DatabasePy Main Api Spec.

Lemma matches_empty (d : doc) : matches ∅ d = true.
Proof. unfold matches. rewrite map_to_list_empty. reflexivity. Qed.

Lemma matches_insert (flt : gmap string value) (k : string) (v : value) (d : doc) :
  flt !! k = None ->
  matches (<[k := v]> flt) d
  = match d !! k with Some w => value_eqb w v | None => false end && matches flt d.
Proof.
  intros Hk. apply eq_iff_eq_true.
  rewrite andb_true_iff, !matches_spec. split.
  - intros H; split.
    + destruct (H k v (lookup_insert_eq _ _ _)) as (w & -> & Hw). exact Hw.
    + intros k' v' Hk'. apply H.
      rewrite lookup_insert_ne; [exact Hk'|]. intros ->. congruence.
  - intros [H1 H2] k' v' Hk'.
    destruct (decide (k = k')) as [<-|Hne].
    + rewrite lookup_insert_eq in Hk'. injection Hk' as <-.
      destruct (d !! k) as [w|]; [eauto | discriminate].
    + rewrite lookup_insert_ne in Hk' by exact Hne. eauto.
Qed.

Lemma matches_course (course : option string) (d : doc) :
  matches (course_filter course) d = field_is "course" course d.
Proof.
  unfold course_filter, field_is.
  destruct course as [c|]; [|apply matches_empty].
  destruct (PyStr.nonempty c); [|apply matches_empty].
  rewrite matches_insert by apply lookup_empty.
  rewrite matches_empty, andb_true_r. reflexivity.
Qed.

Lemma matches_course_subject (course subject : option string) (d : doc) :
  matches
    match subject with
    | Some sb => if PyStr.nonempty sb then <["subject" := VStr sb]> (course_filter course)
                 else course_filter course
    | None => course_filter course
    end d
  = field_is "course" course d && field_is "subject" subject d.
Proof.
  assert (course_filter course !! "subject" = None) as Hfresh.
  { unfold course_filter. destruct course as [c|]; [|apply lookup_empty].
    destruct (PyStr.nonempty c); [|apply lookup_empty].
    rewrite lookup_insert_ne by discriminate. apply lookup_empty. }
  unfold field_is at 2.
  destruct subject as [sb|]; [|rewrite andb_true_r; apply matches_course].
  destruct (PyStr.nonempty sb); [|rewrite andb_true_r; apply matches_course].
  rewrite matches_insert by exact Hfresh.
  rewrite matches_course. apply andb_comm.
Qed.

Lemma comprehension_pure (p : doc -> result exn bool) (b : doc -> bool) (items : list doc) :
  (forall i, In i items -> p i = Ok (b i)) ->
  comprehension p items = Ok (List.filter b items).
Proof.
  induction items as [|i items IH]; intros H; simpl; [reflexivity|].
  rewrite (H i (or_introl eq_refl)).
  rewrite IH by (intros j Hj; apply H; right; exact Hj).
  destruct (b i); reflexivity.
Qed.

Lemma filter_map_commute {A B} (f : A -> B) (p : B -> bool) (l : list A) :
  List.filter p (map f l) = map f (List.filter (fun a => p (f a)) l).
Proof.
  induction l as [|a l IH]; simpl; [reflexivity|].
  destruct (p (f a)); simpl; rewrite IH; reflexivity.
Qed.

Lemma filter_all {A} (p : A -> bool) (l : list A) :
  (forall a, p a = true) -> List.filter p l = l.
Proof.
  intros H; induction l as [|a l IH]; simpl; [reflexivity|].
  rewrite H, IH; reflexivity.
Qed.

Lemma title_of_serialize (d : doc) : title_of (serialize_doc d) = title_of d.
Proof. unfold title_of. rewrite serialize_doc_frame by discriminate. reflexivity. Qed.

Lemma description_of_serialize (d : doc) :
  description_of (serialize_doc d) = description_of d.
Proof. unfold description_of. rewrite serialize_doc_frame by discriminate. reflexivity. Qed.

Lemma subjects_of_serialize (d : doc) : subjects_of (serialize_doc d) = subjects_of d.
Proof. unfold subjects_of. rewrite serialize_doc_frame by discriminate. reflexivity. Qed.

Lemma material_hit_shaped (q : string) (d : doc) :
  material_shaped d = true ->
  material_hit (PyStr.lower q) (serialize_doc d) = Ok (q_matches q d).
Proof.
  unfold material_shaped, q_matches, material_hit, get, title_of, description_of.
  rewrite !serialize_doc_frame by discriminate.
  destruct (d !! "title") as [[]|]; try discriminate; simpl.
  destruct (PyStr.contains (PyStr.lower q) (PyStr.lower s)); [reflexivity|]; simpl.
  destruct (d !! "description") as [[]|]; try discriminate; simpl; try reflexivity.
  intros _. unfold py_or; simpl. destruct s0; reflexivity.
Qed.

Lemma any_lower_strings (sl : string) (l : list value) :
  forallb is_str l = true ->
  any_lower sl l
  = Ok (existsb (fun s => PyStr.contains sl (PyStr.lower s))
          (omap (fun v => match v with VStr s => Some s | _ => None end) l)).
Proof.
  induction l as [|v l IH]; simpl; [reflexivity|].
  destruct v; try discriminate; simpl. intros H.
  destruct (PyStr.contains sl (PyStr.lower s)); [reflexivity | exact (IH H)].
Qed.

Lemma tutor_hit_shaped (subject : string) (d : doc) :
  tutor_shaped d = true ->
  tutor_hit (PyStr.lower subject) (serialize_doc d) = Ok (subject_matches subject d).
Proof.
  unfold tutor_shaped, subject_matches, subjects_of, tutor_hit, get.
  rewrite serialize_doc_frame by discriminate.
  destruct (d !! "subjects") as [[]|]; try discriminate.
  - intros H. simpl. apply any_lower_strings, H.
  - reflexivity.
Qed.

Lemma q_matches_empty (d : doc) : q_matches "" d = true.
Proof. unfold q_matches; simpl. rewrite contains_empty. reflexivity. Qed.

Lemma list_materials_healthy (course subject : option string) (q : string) (st : Store) :
  faults st = [] ->
  forallb material_shaped (coll "material" st) = true ->
  list_materials course subject (Some q) (Some st)
  = (Ok (items_response
           (map serialize_doc
              (List.filter (q_matches q)
                 (List.filter
                    (fun d => field_is "course" course d && field_is "subject" subject d)
                    (coll "material" st))))),
     Some st).
Proof.
  intros Hst Hshape. unfold list_materials.
  fold (course_filter course).
  unfold bind at 1. rewrite (get_documents_healthy st Hst).
  rewrite (List.filter_ext _ _ (matches_course_subject course subject)).
  set (docs := List.filter _ (coll "material" st)).
  assert (forall d, In d docs -> material_shaped d = true) as Hdocs.
  { intros d Hd. apply List.filter_In in Hd as [Hd _].
    exact (proj1 (forallb_forall _ _) Hshape d Hd). }
  destruct (PyStr.nonempty q) eqn:Eq.
  - unfold bind, lift.
    rewrite (comprehension_pure _ (q_matches q) (map serialize_doc docs)).
    + unfold ret. do 3 f_equal.
      rewrite filter_map_commute. f_equal.
      apply List.filter_ext. intros d.
      unfold q_matches. rewrite title_of_serialize, description_of_serialize.
      reflexivity.
    + intros i Hi. apply in_map_iff in Hi as (d & <- & Hd).
      rewrite material_hit_shaped.
      * unfold q_matches. rewrite title_of_serialize, description_of_serialize.
        reflexivity.
      * exact (Hdocs d Hd).
  - apply nonempty_false in Eq; subst q.
    unfold bind, ret. rewrite (filter_all (q_matches "")) by apply q_matches_empty.
    reflexivity.
Qed.

End ListingFacts.

Section TutorListing.
Import Database Driver DatabasePy Main Api Spec.

Lemma list_tutors_healthy (course : option string) (subject : string) (st : Store) :
  faults st = [] ->
  forallb tutor_shaped (coll "tutor" st) = true ->
  PyStr.nonempty subject = true ->
  list_tutors course (Some subject) (Some st)
  = (Ok (items_response
           (map serialize_doc
              (List.filter (subject_matches subject)
                 (List.filter (field_is "course" course) (coll "tutor" st))))),
     Some st).
Proof.
  intros Hst Hshape Hne. unfold list_tutors.
  fold (course_filter course).
  unfold bind at 1. rewrite (get_documents_healthy st Hst).
  rewrite (List.filter_ext _ _ (matches_course course)).
  set (docs := List.filter _ (coll "tutor" st)).
  rewrite Hne. unfold bind, lift.
  rewrite (comprehension_pure _ (subject_matches subject) (map serialize_doc docs)).
  - unfold ret. do 3 f_equal.
    rewrite filter_map_commute. f_equal.
    apply List.filter_ext. intros d.
    unfold subject_matches. rewrite subjects_of_serialize. reflexivity.
  - intros i Hi. apply in_map_iff in Hi as (d & <- & Hd).
    rewrite tutor_hit_shaped.
    + unfold subject_matches. rewrite subjects_of_serialize. reflexivity.
    + apply List.filter_In in Hd as [Hd _].
      exact (proj1 (forallb_forall _ _) Hshape d Hd).
Qed.

End TutorListing.






Section RoundTrip.
Import Pydantic Database Driver DatabasePy Main Api Spec.

Lemma list_materials_all (course subject : option string) (st : Store) :
  faults st = [] ->
  list_materials course subject None (Some st)
  = (Ok (items_response
           (map serialize_doc
              (List.filter
                 (fun d => field_is "course" course d && field_is "subject" subject d)
                 (coll "material" st)))),
     Some st).
Proof.
  intros Hst. unfold list_materials.
  fold (course_filter course).
  unfold bind at 1. rewrite (get_documents_healthy st Hst).
  rewrite (List.filter_ext _ _ (matches_course_subject course subject)).
  reflexivity.
Qed.




End RoundTrip.



(** ** Seeding *)

Section SeedingFacts.
Import Database Driver DatabasePy Main Api Spec.

Lemma insert_all_faults (name : string) (l : list doc) (st : Store) :
  faults (insert_all name l st) = faults st.
Proof.
  revert st; induction l as [|d l IH]; intros st; simpl; [reflexivity|].
  rewrite IH. reflexivity.
Qed.

Lemma insert_all_same (name : string) (l : list doc) (st : Store) :
  coll name (insert_all name l st) = coll name st ++ with_ids (next_oid st) l.
Proof.
  revert st; induction l as [|d l IH]; intros st; simpl.
  - rewrite app_nil_r. reflexivity.
  - rewrite IH, coll_inserted_same.
    rewrite <- app_assoc. reflexivity.
Qed.

Lemma insert_all_other (name other : string) (l : list doc) (st : Store) :
  name <> other -> coll other (insert_all name l st) = coll other st.
Proof.
  intros Hne. revert st; induction l as [|d l IH]; intros st; simpl; [reflexivity|].
  rewrite IH. apply coll_inserted_other, Hne.
Qed.

Lemma bind_ok {A B} (m : M A) (k : A -> M B) (s s' : Db) (a : A) :
  m s = (Ok a, s') -> bind m k s = k a s'.
Proof. unfold bind; intros ->; reflexivity. Qed.

Lemma for_each_insert_healthy (name : string) (l : list doc) (st : Store) :
  faults st = [] ->
  for_each l (fun m => bind (insert_one name m) (fun _ => ret tt)) (Some st)
  = (Ok tt, Some (insert_all name l st)).
Proof.
  revert st; induction l as [|d l IH]; intros st Hst; simpl; [reflexivity|].
  unfold bind at 1. unfold bind at 1. rewrite (insert_one_healthy st Hst).
  unfold ret at 1. apply IH. exact Hst.
Qed.

(** The store after a start-up on which no operation fails. *)
Lemma seed_demo_healthy (st : Store) :
  faults st = [] ->
  seed_demo (Some st)
  = (Ok tt,
     Some (let st1 := match coll "material" st with
                      | [] => insert_all "material" demo_materials st
                      | _ :: _ => st
                      end in
           match coll "tutor" st1 with
           | [] => insert_all "tutor" demo_tutors st1
           | _ :: _ => st1
           end)).
Proof.
  intros Hst.
  assert (forall st1, faults st1 = [] ->
            bind (count_documents "tutor")
              (fun n => if Nat.eqb n 0
                        then for_each demo_tutors
                               (fun t => bind (insert_one "tutor" t) (fun _ => ret tt))
                        else ret tt) (Some st1)
            = (Ok tt, Some match coll "tutor" st1 with
                           | [] => insert_all "tutor" demo_tutors st1
                           | _ :: _ => st1
                           end)) as Htutor.
  { intros st1 H1.
    rewrite (bind_ok _ _ _ _ _ (count_documents_healthy st1 H1 "tutor")).
    destruct (coll "tutor" st1) as [|t ts]; cbn [length Nat.eqb].
    - apply (for_each_insert_healthy "tutor" demo_tutors st1 H1).
    - reflexivity. }
  unfold seed_demo, try_except, seed_demo_body.
  rewrite (bind_ok get_db _ (Some st) (Some st) (Some st) eq_refl).
  rewrite (bind_ok _ _ _ _ _ (count_documents_healthy st Hst "material")).
  destruct (coll "material" st) as [|m ms]; cbn [length Nat.eqb].
  - rewrite (bind_ok _ _ _ _ _
               (for_each_insert_healthy "material" demo_materials st Hst)).
    rewrite Htutor by (rewrite insert_all_faults; exact Hst). reflexivity.
  - rewrite (bind_ok (ret tt) _ (Some st) (Some st) tt eq_refl).
    rewrite (Htutor st Hst). reflexivity.
Qed.

Lemma seed_demo_total (db : Db) : fst (seed_demo db) = Ok tt.
Proof.
  unfold seed_demo, try_except.
  destruct (seed_demo_body db) as [[[]|e] s']; reflexivity.
Qed.

End SeedingFacts.

(** C8. Start-up never fails, whatever the store does.  Against a store on
    which no operation fails, an empty material collection receives exactly
    the two demo materials and an empty tutor collection exactly the two
    demo tutors, each under an identifier of the store; a collection that
    holds a document is left as it is, and so is every other collection.
    The demo documents carry the listed titles, prices, ratings, download
    counts and names. *)
Theorem seed_demo_seeds_empty_collections :
  (forall db : Database.Db, fst (Main.seed_demo db) = Ok tt) /\
  Main.seed_demo None = (Ok tt, None) /\
  (forall st : Database.Store,
      Database.faults st = [] ->
      exists st' : Database.Store,
        Main.seed_demo (Some st) = (Ok tt, Some st') /\
        (Driver.coll "material" st = [] ->
         Driver.coll "material" st'
         = Spec.with_ids (Database.next_oid st) Main.demo_materials) /\
        (Driver.coll "material" st <> [] ->
         Driver.coll "material" st' = Driver.coll "material" st) /\
        (Driver.coll "tutor" st = [] ->
         exists n, Driver.coll "tutor" st' = Spec.with_ids n Main.demo_tutors) /\
        (Driver.coll "tutor" st <> [] ->
         Driver.coll "tutor" st' = Driver.coll "tutor" st) /\
        (forall name : string,
            name <> "material" -> name <> "tutor" ->
            Driver.coll name st' = Driver.coll name st)) /\
  map (fun d : doc => (d !! "title", d !! "price", d !! "rating", d !! "downloads"))
      Main.demo_materials
  = [ (Some (VStr "Data Structures Reviewer"), Some (VInt 50),
       Some (VFloat 4.9%Q), Some (VInt 120));
      (Some (VStr "Circuit Analysis Handout"), Some (VInt 0),
       Some (VFloat 4.7%Q), Some (VInt 88)) ] /\
  map (fun d : doc => d !! "name") Main.demo_tutors
  = [ Some (VStr "Maria Santos"); Some (VStr "Mark Reyes") ].
Proof.
  split; [exact seed_demo_total|].
  split; [reflexivity|].
  split; [|split; vm_compute; reflexivity].
  intros st Hst. eexists. split; [exact (seed_demo_healthy st Hst)|].
  cbv zeta.
  destruct (Driver.coll "material" st) as [|m ms] eqn:Em;
    destruct (Driver.coll "tutor" st) as [|t ts] eqn:Et.
  - rewrite (insert_all_other "material" "tutor") by discriminate. rewrite Et.
    repeat split; try congruence.
    + rewrite (insert_all_other "tutor" "material") by discriminate.
      rewrite insert_all_same, Em. reflexivity.
    + intros _. eexists. rewrite insert_all_same.
      rewrite (insert_all_other "material" "tutor") by discriminate.
      rewrite Et. reflexivity.
    + intros name H1 H2. rewrite !insert_all_other by congruence. reflexivity.
  - rewrite (insert_all_other "material" "tutor") by discriminate. rewrite Et.
    repeat split; try congruence.
    + rewrite insert_all_same, Em. reflexivity.
    + intros _. rewrite (insert_all_other "material" "tutor") by discriminate. exact Et.
    + intros name H1 H2. rewrite !insert_all_other by congruence. reflexivity.
  - repeat split; try congruence.
    + intros _. rewrite (insert_all_other "tutor" "material") by discriminate. exact Em.
    + intros _. eexists. rewrite insert_all_same, Et. reflexivity.
    + intros name H1 H2. rewrite !insert_all_other by congruence. reflexivity.
  - repeat split; congruence.
Qed.


(** ** Stored documents keep their shape

    The listing theorems assume stored materials and tutors shaped as
    validation leaves them.  Seeding and the three POST routes keep every
    collection in that shape. *)

Section ShapeFacts.
Import Pydantic Database Driver DatabasePy Main Api Spec.

Lemma Tutor_names_nodup : NoDup (map fname Schemas.Tutor).
Proof. apply (bool_decide_unpack _). vm_compute. exact I. Qed.

Lemma material_shaped_id (d : doc) (v : value) :
  material_shaped (<["_id" := v]> d) = material_shaped d.
Proof. unfold material_shaped. rewrite !lookup_insert_ne by discriminate. reflexivity. Qed.

Lemma tutor_shaped_id (d : doc) (v : value) :
  tutor_shaped (<["_id" := v]> d) = tutor_shaped d.
Proof. unfold tutor_shaped. rewrite !lookup_insert_ne by discriminate. reflexivity. Qed.

Lemma forallb_with_ids (p : doc -> bool) (l : list doc) :
  (forall d v, p (<["_id" := v]> d) = p d) ->
  forall n, forallb p (with_ids n l) = forallb p l.
Proof.
  intros Hp. induction l as [|d l IH]; intros n; simpl; [reflexivity|].
  rewrite Hp, IH. reflexivity.
Qed.

Lemma coerce_items_all (f : json -> vresult) (p : value -> bool) :
  (forall j v, f j = Ok v -> p v = true) ->
  forall l i vs, coerce_items f i l = Ok vs -> forallb p vs = true.
Proof.
  intros Hf l. induction l as [|j l IH]; intros i vs; simpl.
  - intros [= <-]. reflexivity.
  - destruct (f j) as [v|e] eqn:Ej;
      destruct (coerce_items f (S i) l) as [vs'|es] eqn:E; try discriminate.
    intros [= <-]. simpl. rewrite (Hf _ _ Ej), (IH _ _ E). reflexivity.
Qed.

Lemma coerce_items_strings (l : list json) (i : nat) (vs : list value) :
  coerce_items (coerce TStr) i l = Ok vs -> forallb is_str vs = true.
Proof.
  apply coerce_items_all. intros j v. destruct j; simpl; try discriminate.
  intros [= <-]. reflexivity.
Qed.

Lemma validated_material_shaped (body : json) (data : doc) :
  validate_payload Schemas.Material body = Ok data -> material_shaped data = true.
Proof.
  intros Hv. destruct (validate_payload_ok _ _ _ Hv) as (dobj & Hm & _).
  destruct (validate_payload_get _ _ _ _ Material_names_nodup Hv Hm
              (Field "title" TStr Required unbounded)) as (t & Ht & Hdt); [simpl; tauto|].
  destruct (validated_str _ _ _ Ht) as (s & _ & ->).
  destruct (validate_payload_get _ _ _ _ Material_names_nodup Hv Hm
              (Field "description" (TOptional TStr) (Default VNone) unbounded))
    as (v & Hd & Hdd); [simpl; tauto|].
  unfold material_shaped. simpl in Hdt, Hdd. rewrite Hdt, Hdd.
  unfold validate_field in Hd; simpl in Hd.
  destruct (obj_get "description" dobj) as [[]|]; simpl in Hd; try discriminate Hd;
    injection Hd as <-; reflexivity.
Qed.

Lemma coerce_list_strings (j : json) (v : value) :
  coerce (TList TStr) j = Ok v -> exists vs, v = VList vs /\ forallb is_str vs = true.
Proof.
  destruct j; try (simpl; discriminate).
  change (coerce (TList TStr) (JArr l))
    with (match coerce_items (coerce TStr) 0 l with
          | Ok vs => Ok (VList vs)
          | Err es => Err es
          end : vresult).
  destruct (coerce_items (coerce TStr) 0 l) as [vs|es] eqn:E; [|discriminate].
  intros [= <-]. exists vs. split; [reflexivity|]. exact (coerce_items_strings _ _ _ E).
Qed.

Lemma validated_tutor_shaped (body : json) (data : doc) :
  validate_payload Schemas.Tutor body = Ok data -> tutor_shaped data = true.
Proof.
  intros Hv. destruct (validate_payload_ok _ _ _ Hv) as (dobj & Hm & _).
  destruct (validate_payload_get _ _ _ _ Tutor_names_nodup Hv Hm
              (Field "subjects" (TList TStr) (Default (VList [])) unbounded))
    as (v & Hs & Hds); [simpl; tauto|].
  unfold tutor_shaped. simpl in Hds. rewrite Hds.
  unfold validate_field in Hs. cbn [fname fdef ftyp fbounds] in Hs.
  destruct (obj_get "subjects" dobj) as [j|].
  - destruct (coerce (TList TStr) j) as [w|es] eqn:Ec; [|discriminate Hs].
    destruct (check_bounds unbounded w) as [w'|es] eqn:Eb; [|discriminate Hs].
    injection Hs as <-. rewrite (check_bounds_same _ _ _ Eb).
    destruct (coerce_list_strings _ _ Ec) as (vs & -> & Hvs). exact Hvs.
  - injection Hs as <-. reflexivity.
Qed.

Lemma shaped_inserted (name : string) (d : doc) (st : Store) :
  shaped st = true ->
  (name = "material" -> material_shaped d = true) ->
  (name = "tutor" -> tutor_shaped d = true) ->
  shaped (inserted name d st) = true.
Proof.
  unfold shaped. intros H Hm Ht. apply andb_true_iff in H as [H1 H2].
  apply andb_true_iff. split.
  - destruct (decide (name = "material")) as [->|Hne].
    + rewrite coll_inserted_same, forallb_app, H1. simpl.
      rewrite material_shaped_id, (Hm eq_refl). reflexivity.
    + rewrite coll_inserted_other by exact Hne. exact H1.
  - destruct (decide (name = "tutor")) as [->|Hne].
    + rewrite coll_inserted_same, forallb_app, H2. simpl.
      rewrite tutor_shaped_id, (Ht eq_refl). reflexivity.
    + rewrite coll_inserted_other by exact Hne. exact H2.
Qed.

Lemma shaped_insert_all (name : string) (l : list doc) :
  (name = "material" -> forallb material_shaped l = true) ->
  (name = "tutor" -> forallb tutor_shaped l = true) ->
  forall st, shaped st = true -> shaped (insert_all name l st) = true.
Proof.
  induction l as [|d l IH]; intros Hm Ht st Hst; simpl; [exact Hst|].
  apply IH.
  - intros E. specialize (Hm E). simpl in Hm. apply andb_true_iff in Hm. tauto.
  - intros E. specialize (Ht E). simpl in Ht. apply andb_true_iff in Ht. tauto.
  - apply shaped_inserted; [exact Hst | |].
    + intros E. specialize (Hm E). simpl in Hm. apply andb_true_iff in Hm. tauto.
    + intros E. specialize (Ht E). simpl in Ht. apply andb_true_iff in Ht. tauto.
Qed.

(** Seeding keeps the shape. *)
Lemma seed_demo_shaped (st : Store) :
  faults st = [] -> shaped st = true ->
  exists st', seed_demo (Some st) = (Ok tt, Some st') /\ faults st' = [] /\ shaped st' = true.
Proof.
  intros Hst Hsh. eexists. split; [exact (seed_demo_healthy st Hst)|].
  cbv zeta.
  assert (forall s, shaped s = true ->
                    shaped (insert_all "material" demo_materials s) = true) as Hmat.
  { apply shaped_insert_all; [reflexivity | discriminate]. }
  assert (forall s, shaped s = true ->
                    shaped (insert_all "tutor" demo_tutors s) = true) as Htut.
  { apply shaped_insert_all; [discriminate | reflexivity]. }
  destruct (coll "material" st);
    match goal with |- context [match ?c with [] => _ | _ :: _ => _ end] => destruct c end;
    rewrite ?insert_all_faults; auto.
Qed.

(** Each POST route keeps the shape. *)
Lemma post_keeps_shape (schema : list field) (post : json -> M doc) (body : json)
      (st : Store) (r : result exn doc) (db' : Db) :
  In (schema, post) endpoints ->
  faults st = [] -> shaped st = true ->
  post body (Some st) = (r, db') ->
  exists st', db' = Some st' /\ faults st' = [] /\ shaped st' = true.
Proof.
  intros He Hst Hsh.
  simpl in He. destruct He as [H|[H|[H|[]]]]; injection H as <- <-.
  - unfold post_materials, with_body.
    destruct (validate_payload Schemas.Material body) as [data|es] eqn:Hv.
    + unfold create_material, bind. rewrite (create_document_healthy st Hst).
      intros [= <- <-]. eexists; split; [reflexivity|]. split; [exact Hst|].
      apply shaped_inserted; [exact Hsh | | discriminate].
      intros _. exact (validated_material_shaped _ _ Hv).
    + intros [= <- <-]. eauto.
  - unfold post_tutors, with_body.
    destruct (validate_payload Schemas.Tutor body) as [data|es] eqn:Hv.
    + unfold create_tutor, bind. rewrite (create_document_healthy st Hst).
      intros [= <- <-]. eexists; split; [reflexivity|]. split; [exact Hst|].
      apply shaped_inserted; [exact Hsh | discriminate |].
      intros _. exact (validated_tutor_shaped _ _ Hv).
    + intros [= <- <-]. eauto.
  - unfold post_bookings, with_body.
    destruct (validate_payload Schemas.Booking body) as [data|es] eqn:Hv.
    + destruct (validate_payload_ok _ _ _ Hv) as (dobj & Hm & _).
      destruct (validate_payload_get _ _ _ _ Booking_names_nodup Hv Hm
                  (Field "tutor_id" TStr Required unbounded)) as (v & Hf & Hd);
        [simpl; tauto|].
      destruct (validated_str _ _ _ Hf) as (s & _ & ->).
      pose proof (create_booking_cases data (Some st) s Hst Hd) as Hc.
      destruct (Bson.parse s) as [tid|].
      * destruct (existsb (has_id tid) (docs_of (Some st) "tutor")).
        -- destruct Hc as (st0 & [= <-] & ->).
           intros [= <- <-]. eexists; split; [reflexivity|]. split; [exact Hst|].
           apply shaped_inserted; [exact Hsh | discriminate | discriminate].
        -- rewrite Hc. intros [= <- <-]. eauto.
      * rewrite Hc. intros [= <- <-]. eauto.
    + intros [= <- <-]. eauto.
Qed.

End ShapeFacts.


(** ** The end-to-end scenarios of the specification, on the seeded store *)

Section Scenarios.
Import Database Main Api Examples.

Example scenario_materials_q_circuit :
  listed "title" (list_materials None None (Some "circuit") seeded)
  = [Some (VStr "Circuit Analysis Handout")].
Proof. vm_compute. reflexivity. Qed.

Example scenario_tutors_subject_data :
  listed "name" (list_tutors None (Some "data") seeded) = [Some (VStr "Maria Santos")].
Proof. vm_compute. reflexivity. Qed.

Example scenario_booking_accepted :
  listed "id" (list_tutors None (Some "data") seeded)
  = [Some (VStr "000000000000000000000003")] /\
  fst (post_bookings (booking_body "000000000000000000000003") seeded)
  = Ok (<["status" := VStr "pending"]> {[ "id" := VStr "000000000000000000000005" ]}) /\
  status_of (fst (post_bookings (booking_body "000000000000000000000003") seeded)) = 200%Z.
Proof. repeat split; vm_compute; reflexivity. Qed.

Example scenario_booking_malformed_id :
  post_bookings (booking_body "abc") seeded
  = (Err (HTTPException 400 "Invalid tutor_id"), seeded).
Proof. vm_compute. reflexivity. Qed.

Example scenario_booking_unknown_tutor :
  post_bookings (booking_body "00000000000000000000000f") seeded
  = (Err (HTTPException 404 "Tutor not found"), seeded).
Proof. vm_compute. reflexivity. Qed.

Example scenario_tutors_course_and_subject :
  listed "name"
    (list_tutors (Some "Information Technology") (Some "programming") seeded)
  = [Some (VStr "Maria Santos")].
Proof. vm_compute. reflexivity. Qed.

Example scenario_first_offender :
  Spec.first_offender Schemas.Booking bad_booking_body
  = [Pydantic.LKey "body"; Pydantic.LKey "data"; Pydantic.LKey "student_name"].
Proof. vm_compute. reflexivity. Qed.

Example scenario_enumeration_rejected :
  status_of (fst (post_bookings bad_booking_body seeded)) = 422%Z /\
  snd (post_bookings bad_booking_body seeded) = seeded.
Proof. split; vm_compute; reflexivity. Qed.

End Scenarios.

(** * Further properties of the handlers *)

(** ** Serialisation *)

Section SerializeMore.
Import Frames.

Lemma serialize_doc_plain (d : doc) : carries_oid d = false -> serialize_doc d = d.
Proof.
  unfold carries_oid, serialize_doc. intros H.
  destruct (negb (doc_truthy d)); [reflexivity|].
  destruct (d !! "_id") as [[]|]; try reflexivity. discriminate H.
Qed.

Lemma carries_oid_serialized (d : doc) : carries_oid (serialize_doc d) = false.
Proof.
  destruct (carries_oid d) eqn:E.
  - unfold carries_oid in *.
    destruct (d !! "_id") as [[]|] eqn:Eid; try discriminate E.
    rewrite (serialize_doc_oid d o Eid), lookup_delete_eq. reflexivity.
  - rewrite serialize_doc_plain; assumption.
Qed.

End SerializeMore.

(** X1. A document without an [ObjectId] under [_id] (the key is missing,
    holds something else, or the document is empty) is serialised to
    itself, and serialising twice is the same as serialising once. *)
Theorem serialize_doc_plain_and_idempotent :
  (forall d : doc, Frames.carries_oid d = false -> serialize_doc d = d) /\
  (forall d : doc, serialize_doc (serialize_doc d) = serialize_doc d).
Proof.
  split; [exact serialize_doc_plain|].
  intros d. apply serialize_doc_plain, carries_oid_serialized.
Qed.

(** X2. The keys of a serialised document are those of the stored one with
    [_id] taken out and [id] put in; in particular an [id] the stored
    document already had is overwritten by the store's identifier. *)
Theorem serialize_doc_keys (d : doc) (o : Bson.ObjectId) :
  d !! "_id" = Some (VOid o) ->
  dom (serialize_doc d) = {[ "id" ]} ∪ (dom d ∖ {[ "_id" ]}) /\
  (forall v : value,
      serialize_doc (<["id" := v]> d) !! "id" = Some (VStr (Bson.str o))).
Proof.
  intros H. split.
  - rewrite (serialize_doc_oid d o H). rewrite dom_delete_L, dom_insert_L.
    apply set_eq. intros k.
    rewrite elem_of_difference, !elem_of_union, elem_of_difference, !elem_of_singleton.
    split.
    + intros [[->|H1] H2]; [left; reflexivity | right; split; assumption].
    + intros [->|[H1 H2]]; [split; [left; reflexivity | discriminate] | split; [right|]; assumption].
  - intros v.
    rewrite (serialize_doc_oid (<["id" := v]> d) o)
      by (rewrite lookup_insert_ne by discriminate; exact H).
    rewrite lookup_delete_ne by discriminate. apply lookup_insert_eq.
Qed.

Lemma serialize_doc_keys_witness :
  dom (serialize_doc (<["_id" := VOid 255%N]> {[ "title" := VStr "Notes" ]}))
  = {[ "id" ]} ∪ (dom (<["_id" := VOid 255%N]> ({[ "title" := VStr "Notes" ]} : doc))
                  ∖ {[ "_id" ]}) /\
  (forall v : value,
      serialize_doc (<["id" := v]> (<["_id" := VOid 255%N]> {[ "title" := VStr "Notes" ]}))
        !! "id"
      = Some (VStr (Bson.str 255%N))).
Proof.
  exact (serialize_doc_keys
           (<["_id" := VOid 255%N]> {[ "title" := VStr "Notes" ]}) 255%N eq_refl).
Defined.


(** ** What handlers leave alone *)

Section FrameFacts.
Import Database Driver DatabasePy Main Api Spec Frames.

Variable names : list string.

Lemma grows_same (st st' : Store) :
  collections st' = collections st -> grows names (Some st) (Some st').
Proof.
  intros H n. exists []. unfold coll. rewrite H, app_nil_r. split; reflexivity.
Qed.

Lemma grows_refl (s : Db) : grows names s s.
Proof. destruct s as [st|]; [apply grows_same; reflexivity | exact I]. Qed.

Lemma grows_trans (s1 s2 s3 : Db) :
  grows names s1 s2 -> grows names s2 s3 -> grows names s1 s3.
Proof.
  destruct s1 as [st1|], s2 as [st2|], s3 as [st3|]; simpl; try tauto.
  intros H12 H23 n.
  destruct (H12 n) as (l1 & E1 & N1). destruct (H23 n) as (l2 & E2 & N2).
  exists (l1 ++ l2). split.
  - rewrite E2, E1, app_assoc. reflexivity.
  - intros Hn. rewrite (N1 Hn), (N2 Hn). reflexivity.
Qed.

Lemma preserves_ret {A} (a : A) : preserves (grows names) (ret a).
Proof. intros s. apply grows_refl. Qed.

Lemma preserves_raise {A} (e : exn) : preserves (grows names) (@raise A e).
Proof. intros s. apply grows_refl. Qed.

Lemma preserves_lift {A} (r : result exn A) : preserves (grows names) (lift r).
Proof. destruct r; [apply preserves_ret | apply preserves_raise]. Qed.

Lemma preserves_get_db : preserves (grows names) get_db.
Proof. intros s. apply grows_refl. Qed.

Lemma preserves_bind {A B} (m : M A) (k : A -> M B) :
  preserves (grows names) m ->
  (forall a, preserves (grows names) (k a)) ->
  preserves (grows names) (bind m k).
Proof.
  intros Hm Hk s. unfold bind. specialize (Hm s).
  destruct (m s) as [[a|e] s']; simpl in *; [|exact Hm].
  eapply grows_trans; [exact Hm | apply Hk].
Qed.

Lemma preserves_try {A} (m : M A) (h : exn -> M A) :
  preserves (grows names) m ->
  (forall e, preserves (grows names) (h e)) ->
  preserves (grows names) (try_except m h).
Proof.
  intros Hm Hh s. unfold try_except. specialize (Hm s).
  destruct (m s) as [[a|e] s']; simpl in *; [exact Hm|].
  eapply grows_trans; [exact Hm | apply Hh].
Qed.

Lemma preserves_connect : preserves (grows names) connect.
Proof.
  intros [st|]; simpl; [|exact I].
  destruct (faults st) as [|[] fs]; simpl; apply grows_same; reflexivity.
Qed.

Lemma preserves_count_documents (name : string) :
  preserves (grows names) (count_documents name).
Proof.
  apply preserves_bind; [apply preserves_connect | intros st; apply preserves_ret].
Qed.

Lemma preserves_find (name : string) (flt : gmap string value) :
  preserves (grows names) (find name flt).
Proof.
  apply preserves_bind; [apply preserves_connect | intros st; apply preserves_ret].
Qed.

Lemma preserves_find_one (name : string) (flt : gmap string value) :
  preserves (grows names) (find_one name flt).
Proof.
  apply preserves_bind; [apply preserves_connect | intros st; apply preserves_ret].
Qed.

Lemma preserves_list_collection_names :
  preserves (grows names) Diagnostics.list_collection_names.
Proof.
  apply preserves_bind; [apply preserves_connect | intros st; apply preserves_ret].
Qed.

Lemma grows_insert (name : string) (d : doc) (st st' : Store) :
  In name names ->
  collections st' = collections st ->
  grows names (Some st)
    (Some (mkStore (<[name := coll name st' ++ [d]]> (collections st'))
             (N.succ (next_oid st')) (faults st'))).
Proof.
  intros Hin Hc n. unfold coll; simpl. rewrite Hc.
  destruct (decide (name = n)) as [<-|Hne].
  - rewrite lookup_insert_eq. simpl. eexists. split; [reflexivity|]. tauto.
  - rewrite lookup_insert_ne by exact Hne. exists []. rewrite app_nil_r. tauto.
Qed.

Lemma preserves_insert_one (name : string) (d : doc) :
  In name names -> preserves (grows names) (insert_one name d).
Proof.
  intros Hin [st|]; [|exact I].
  unfold insert_one, bind, connect, put, ret.
  destruct (faults st) as [|[] fs]; simpl.
  - apply (grows_insert name _ st st Hin eq_refl).
  - apply grows_same; reflexivity.
  - apply (grows_insert name _ st (mkStore (collections st) (next_oid st) fs) Hin eq_refl).
Qed.

Lemma preserves_create_document (name : string) (d : doc) :
  In name names -> preserves (grows names) (create_document name d).
Proof.
  intros Hin. apply preserves_bind; [apply preserves_get_db|].
  intros [st|]; [|apply preserves_raise].
  apply preserves_bind; [apply preserves_insert_one, Hin | intros o; apply preserves_ret].
Qed.

Lemma preserves_get_documents (name : string) (flt : gmap string value) :
  preserves (grows names) (get_documents name flt).
Proof.
  apply preserves_bind; [apply preserves_get_db|].
  intros [st|]; [apply preserves_find | apply preserves_raise].
Qed.

Lemma preserves_for_each {A} (l : list A) (body : A -> M unit) :
  (forall a, preserves (grows names) (body a)) ->
  preserves (grows names) (for_each l body).
Proof.
  intros Hb. induction l as [|a l IH]; simpl; [apply preserves_ret|].
  apply preserves_bind; [apply Hb | intros _; exact IH].
Qed.

Lemma preserves_list_materials (course subject q : option string) :
  preserves (grows names) (list_materials course subject q).
Proof.
  unfold list_materials.
  apply preserves_bind; [apply preserves_get_documents|]. intros docs.
  apply preserves_bind; [|intros items; apply preserves_ret].
  destruct q as [qs|]; [|apply preserves_ret].
  destruct (PyStr.nonempty qs); [apply preserves_lift | apply preserves_ret].
Qed.

Lemma preserves_list_tutors (course subject : option string) :
  preserves (grows names) (list_tutors course subject).
Proof.
  unfold list_tutors.
  apply preserves_bind; [apply preserves_get_documents|]. intros docs.
  apply preserves_bind; [|intros items; apply preserves_ret].
  destruct subject as [sb|]; [|apply preserves_ret].
  destruct (PyStr.nonempty sb); [apply preserves_lift | apply preserves_ret].
Qed.

Lemma preserves_test_database (getenv : string -> option string)
      (name_of : Store -> value) (str_exn : exn -> string) :
  preserves (grows names) (Diagnostics.test_database getenv name_of str_exn).
Proof.
  unfold Diagnostics.test_database, Diagnostics.probe.
  apply preserves_bind; [|intros r; apply preserves_ret].
  apply preserves_try; [|intros e; apply preserves_ret].
  apply preserves_bind; [apply preserves_get_db|].
  intros [st|]; [|apply preserves_ret].
  apply preserves_try; [|intros e; apply preserves_ret].
  apply preserves_bind; [apply preserves_list_collection_names|].
  intros cs; apply preserves_ret.
Qed.

Lemma preserves_with_body (schema : list Pydantic.field) (handler : doc -> M doc)
      (body : json) :
  (forall data, preserves (grows names) (handler data)) ->
  preserves (grows names) (with_body schema handler body).
Proof.
  intros H. unfold with_body.
  destruct (Pydantic.validate_payload schema body); [apply H | apply preserves_raise].
Qed.

Lemma preserves_post_materials (body : json) :
  In "material" names -> preserves (grows names) (post_materials body).
Proof.
  intros Hin. apply preserves_with_body. intros data.
  apply preserves_bind; [apply preserves_create_document, Hin|].
  intros i; apply preserves_ret.
Qed.

Lemma preserves_post_tutors (body : json) :
  In "tutor" names -> preserves (grows names) (post_tutors body).
Proof.
  intros Hin. apply preserves_with_body. intros data.
  apply preserves_bind; [apply preserves_create_document, Hin|].
  intros i; apply preserves_ret.
Qed.

Lemma preserves_post_bookings (body : json) :
  In "booking" names -> preserves (grows names) (post_bookings body).
Proof.
  intros Hin. apply preserves_with_body. intros data. unfold create_booking.
  apply preserves_bind.
  { apply preserves_try; [|intros e; apply preserves_raise].
    unfold Main.ObjectId. destruct (data !! "tutor_id") as [[]|]; try apply preserves_raise.
    destruct (Bson.parse s); [apply preserves_ret | apply preserves_raise]. }
  intros tid. apply preserves_bind; [apply preserves_get_db|]. intros db.
  apply preserves_bind.
  { destruct db; [apply preserves_find_one | apply preserves_ret]. }
  intros tutor. destruct (absent tutor); [apply preserves_raise|].
  apply preserves_bind; [apply preserves_create_document, Hin|].
  intros i; apply preserves_ret.
Qed.

Lemma preserves_seed_demo :
  In "material" names -> In "tutor" names -> preserves (grows names) seed_demo.
Proof.
  intros Hm Ht. unfold seed_demo.
  apply preserves_try; [|intros e; apply preserves_ret].
  unfold seed_demo_body.
  apply preserves_bind; [apply preserves_get_db|].
  intros [st|]; [|apply preserves_ret].
  apply preserves_bind; [apply preserves_count_documents|]. intros n.
  apply preserves_bind.
  { destruct (Nat.eqb n 0); [|apply preserves_ret].
    apply preserves_for_each. intros m.
    apply preserves_bind; [apply preserves_insert_one, Hm | intros o; apply preserves_ret]. }
  intros _.
  apply preserves_bind; [apply preserves_count_documents|]. intros n'.
  destruct (Nat.eqb n' 0); [|apply preserves_ret].
  apply preserves_for_each. intros t.
  apply preserves_bind; [apply preserves_insert_one, Ht | intros o; apply preserves_ret].
Qed.

End FrameFacts.

Section FrameReadings.
Import Database Driver DatabasePy Main Api Spec Frames.

Lemma grows_nil_docs (s s' : Db) (n : string) :
  grows [] s s' -> docs_of s' n = docs_of s n.
Proof.
  destruct s as [st|], s' as [st'|]; simpl; try tauto.
  intros H. destruct (H n) as (l & E & Hl).
  rewrite E, (Hl (fun x => x)), app_nil_r. reflexivity.
Qed.

Lemma grows_docs (names : list string) (s s' : Db) (n : string) :
  grows names s s' ->
  exists l, docs_of s' n = docs_of s n ++ l /\ (~ In n names -> l = []).
Proof.
  destruct s as [st|], s' as [st'|]; simpl; try tauto.
  - intros H. exact (H n).
  - intros _. exists []. split; reflexivity.
Qed.

Lemma grows_docs_other (names : list string) (s s' : Db) (n : string) :
  grows names s s' -> ~ In n names -> docs_of s' n = docs_of s n.
Proof.
  intros H Hn. destruct (grows_docs names s s' n H) as (l & E & Hl).
  rewrite E, (Hl Hn), app_nil_r. reflexivity.
Qed.

End FrameReadings.

(** X3. The two listing handlers never change a collection: whatever the
    arguments, the handle and the failures of the store, every collection
    holds afterwards what it held before. *)
Theorem listing_is_read_only
        (course subject q : option string) (db : Database.Db) (name : string) :
  Spec.docs_of (snd (Main.list_materials course subject q db)) name = Spec.docs_of db name /\
  Spec.docs_of (snd (Main.list_tutors course subject db)) name = Spec.docs_of db name.
Proof.
  split; apply grows_nil_docs.
  - apply preserves_list_materials.
  - apply preserves_list_tutors.
Qed.

(** X4. The routes that write only append, each to its own collection:
    whatever the body, the handle and the failures of the store, posting a
    material, a tutor or a booking leaves the documents already stored in
    place and adds nothing outside the collection of that name, and seeding
    adds nothing outside the material and tutor collections. *)
Theorem writes_only_append (body : json) (db : Database.Db) :
  Frames.grows ["material"] db (snd (Api.post_materials body db)) /\
  Frames.grows ["tutor"] db (snd (Api.post_tutors body db)) /\
  Frames.grows ["booking"] db (snd (Api.post_bookings body db)) /\
  Frames.grows ["material"; "tutor"] db (snd (Main.seed_demo db)).
Proof.
  split; [|split; [|split]].
  - apply preserves_post_materials. left; reflexivity.
  - apply preserves_post_tutors. left; reflexivity.
  - apply preserves_post_bookings. left; reflexivity.
  - apply preserves_seed_demo; [left | right; left]; reflexivity.
Qed.

(** ** Bookings name stored tutors *)

Section ReferentialFacts.
Import Database Driver DatabasePy Main Api Spec Frames.

Lemma references_tutor_more (tutors more : list doc) (b : doc) :
  references_tutor tutors b = true -> references_tutor (tutors ++ more) b = true.
Proof.
  unfold references_tutor.
  destruct (b !! "tutor_id") as [[]|]; try discriminate.
  destruct (Bson.parse s); [|discriminate].
  rewrite existsb_app. intros ->. reflexivity.
Qed.

Lemma references_tutor_id (tutors : list doc) (b : doc) (v : value) :
  references_tutor tutors (<["_id" := v]> b) = references_tutor tutors b.
Proof. unfold references_tutor. rewrite lookup_insert_ne by discriminate. reflexivity. Qed.

Lemma found_exists (tid : Bson.ObjectId) (l : list doc) :
  absent (head (List.filter (matches {[ "_id" := VOid tid ]}) l)) = false ->
  existsb (has_id tid) l = true.
Proof.
  rewrite (List.filter_ext _ _ (matches_id tid)).
  destruct (existsb (has_id tid) l) eqn:E; [reflexivity|].
  rewrite (head_filter_none _ _ E). discriminate.
Qed.

(** What [create_booking] does to the booking collection, whatever the
    connection does: nothing, or it appends the validated booking, and then
    the tutor was found. *)
Lemma create_booking_effect (data : doc) (db : Db) :
  docs_of (snd (create_booking data db)) "booking" = docs_of db "booking" \/
  (references_tutor (docs_of db "tutor") data = true /\
   exists oid : Bson.ObjectId,
     docs_of (snd (create_booking data db)) "booking"
     = docs_of db "booking" ++ [<["_id" := VOid oid]> data]).
Proof.
  unfold create_booking, bind, try_except, Main.ObjectId, raise, ret, get_db,
    references_tutor.
  destruct (data !! "tutor_id") as [[]|]; try (left; reflexivity).
  destruct (Bson.parse s) as [tid|]; [|left; reflexivity].
  destruct db as [st|]; simpl; [|left; reflexivity].
  unfold find_one, bind, connect, ret.
  destruct st as [cs n fs]; simpl.
  assert (forall fs1,
    let r :=
      (if absent (head (List.filter (matches {[ "_id" := VOid tid ]})
                          (coll "tutor" (mkStore cs n fs1))))
       then (Err (HTTPException 404 "Tutor not found"), Some (mkStore cs n fs1))
       else
         match create_document "booking" data (Some (mkStore cs n fs1)) with
         | (Ok a, s') =>
             (Ok (<["status" := VStr "pending"]> ({[ "id" := VStr a ]} : doc)), s')
         | (Err e, s') => (Err e, s')
         end) in
    docs_of (snd r) "booking" = coll "booking" (mkStore cs n fs) \/
    (existsb (has_id tid) (coll "tutor" (mkStore cs n fs)) = true /\
     exists oid : Bson.ObjectId,
       docs_of (snd r) "booking"
       = coll "booking" (mkStore cs n fs) ++ [<["_id" := VOid oid]> data])) as Hrest.
  { intros fs1. cbv zeta.
    destruct (absent _) eqn:Ea; [left; reflexivity|].
    apply found_exists in Ea.
    unfold create_document, bind, get_db, insert_one, bind, connect, put, ret; simpl.
    destruct fs1 as [|[] fs2]; simpl; try (left; reflexivity);
      right; (split; [exact Ea|]); exists n;
      unfold coll; simpl; rewrite lookup_insert_eq; reflexivity. }
  destruct fs as [|[] fs1]; simpl.
  - pose proof (Hrest []) as H. cbv zeta in H. destruct (absent _); exact H.
  - left; reflexivity.
  - pose proof (Hrest fs1) as H. cbv zeta in H. destruct (absent _); exact H.
Qed.

Lemma referential_grows (names : list string) (s s' : Db) :
  grows names s s' -> ~ In "booking" names ->
  referential s = true -> referential s' = true.
Proof.
  intros Hg Hn. unfold referential.
  rewrite (grows_docs_other names s s' "booking" Hg Hn).
  destruct (grows_docs names s s' "tutor" Hg) as (l & -> & _).
  rewrite !forallb_forall. intros H b Hb.
  apply references_tutor_more, H, Hb.
Qed.

End ReferentialFacts.

(** X5. Every stored booking names a stored tutor, and seeding and the
    three POST routes keep it so, whatever the body and the failures of the
    store: a booking is only ever appended after its tutor was found, and
    tutors are never removed. *)
Theorem bookings_reference_tutors (body : json) (db : Database.Db) :
  Frames.referential db = true ->
  Frames.referential (snd (Main.seed_demo db)) = true /\
  Frames.referential (snd (Api.post_materials body db)) = true /\
  Frames.referential (snd (Api.post_tutors body db)) = true /\
  Frames.referential (snd (Api.post_bookings body db)) = true.
Proof.
  intros H. split; [|split; [|split]].
  - refine (referential_grows ["material"; "tutor"] _ _ _ _ H).
    + apply preserves_seed_demo; [left | right; left]; reflexivity.
    + simpl. intros [E|[E|[]]]; discriminate E.
  - refine (referential_grows ["material"] _ _ _ _ H).
    + apply preserves_post_materials. left; reflexivity.
    + simpl. intros [E|[]]; discriminate E.
  - refine (referential_grows ["tutor"] _ _ _ _ H).
    + apply preserves_post_tutors. left; reflexivity.
    + simpl. intros [E|[]]; discriminate E.
  - pose proof (preserves_post_bookings ["booking"] body (or_introl eq_refl) db) as Hg.
    assert (~ In "tutor" ["booking"]) as Hn by (simpl; intros [E|[]]; discriminate E).
    unfold Frames.referential in *.
    rewrite (grows_docs_other _ _ _ "tutor" Hg Hn).
    unfold Api.post_bookings, Api.with_body in *.
    destruct (Pydantic.validate_payload Schemas.Booking body) as [data|es]; [|exact H].
    destruct (create_booking_effect data db) as [E|(Hr & oid & E)]; rewrite E.
    + exact H.
    + rewrite forallb_app, H. simpl.
      rewrite references_tutor_id, Hr. reflexivity.
Qed.

Lemma bookings_reference_tutors_witness :
  Frames.referential
    (snd (Main.seed_demo
            (snd (Api.post_bookings (Examples.booking_body "000000000000000000000003")
                    Examples.seeded)))) = true /\
  Frames.referential
    (snd (Api.post_materials Examples.material_body
            (snd (Api.post_bookings (Examples.booking_body "000000000000000000000003")
                    Examples.seeded)))) = true /\
  Frames.referential
    (snd (Api.post_tutors Examples.material_body
            (snd (Api.post_bookings (Examples.booking_body "000000000000000000000003")
                    Examples.seeded)))) = true /\
  Frames.referential
    (snd (Api.post_bookings Examples.material_body
            (snd (Api.post_bookings (Examples.booking_body "000000000000000000000003")
                    Examples.seeded)))) = true.
Proof.
  apply (bookings_reference_tutors Examples.material_body
           (snd (Api.post_bookings (Examples.booking_body "000000000000000000000003")
                   Examples.seeded))).
  vm_compute. reflexivity.
Defined.


(** ** More on validation *)

Section ValidationMore.
Import Pydantic Database Main Api Spec Frames.


Lemma obj_get_skip (k k' : string) (v : json) (pre rest : list (string * json)) :
  k' <> k -> obj_get k' (pre ++ (k, v) :: rest) = obj_get k' (pre ++ rest).
Proof.
  intros Hne. induction pre as [|[k0 v0] pre IH]; simpl.
  - destruct (obj_get k' rest); [reflexivity|].
    destruct (String.eqb_spec k' k); [contradiction | reflexivity].
  - rewrite IH. reflexivity.
Qed.

Lemma validate_field_skip (f : field) (k : string) (v : json)
      (pre rest : list (string * json)) :
  fname f <> k ->
  validate_field f (pre ++ (k, v) :: rest) = validate_field f (pre ++ rest).
Proof. intros H. unfold validate_field. rewrite (obj_get_skip k _ v pre rest H). reflexivity. Qed.

Lemma validate_fields_skip (fs : list field) (k : string) (v : json)
      (pre rest : list (string * json)) :
  ~ In k (map fname fs) ->
  validate_fields fs (pre ++ (k, v) :: rest) = validate_fields fs (pre ++ rest).
Proof.
  induction fs as [|f fs IH]; simpl; [reflexivity|]. intros H.
  rewrite IH by tauto. rewrite validate_field_skip by (intros E; apply H; left; exact E).
  reflexivity.
Qed.

Lemma validate_payload_envelope (fs : list field) (members : list (string * json)) :
  validate_payload fs (envelope members)
  = match validate_fields fs members with
    | (d, []) => Ok d
    | (_, e :: es) =>
        Err (map (fun e => at_loc (LKey "body") (at_loc (LKey "data") e)) (e :: es))
    end.
Proof.
  unfold validate_payload, envelope.
  change (obj_get "data" [("data", JObj members)]) with (Some (JObj members)).
  unfold validate_model.
  destruct (validate_fields fs members) as [d [|e es]]; reflexivity.
Qed.










End ValidationMore.


(** X6. A member the schema does not name is ignored: on each POST route
    the answer and the store are the same with and without it.  No schema
    names [id] or [_id], so an identifier sent by the client never reaches
    the store. *)
Theorem unknown_members_are_ignored
        (schema : list Pydantic.field) (post : json -> Database.M doc)
        (k : string) (v : json) (pre rest : list (string * json)) (db : Database.Db) :
  In (schema, post) Spec.endpoints ->
  ~ In k (map Pydantic.fname schema) ->
  post (Frames.envelope (pre ++ (k, v) :: rest)) db = post (Frames.envelope (pre ++ rest)) db /\
  ~ In "id" (map Pydantic.fname schema) /\ ~ In "_id" (map Pydantic.fname schema).
Proof.
  intros He Hk. split.
  - destruct (endpoint_is_with_body _ _ He) as (handler & ->).
    unfold Api.with_body. rewrite !validate_payload_envelope.
    rewrite (validate_fields_skip schema k v pre rest Hk). reflexivity.
  - simpl in He. destruct He as [H|[H|[H|[]]]]; injection H as <- <-;
      split; simpl; intros E;
      repeat (destruct E as [E|E]; [discriminate E|]); exact E.
Qed.

Lemma unknown_members_are_ignored_witness :
  Api.post_materials
    (Frames.envelope (Examples.material_members ++ ("id", JStr "abc") :: []))
    Examples.seeded
  = Api.post_materials (Frames.envelope (Examples.material_members ++ [])) Examples.seeded /\
  ~ In "id" (map Pydantic.fname Schemas.Material) /\
  ~ In "_id" (map Pydantic.fname Schemas.Material).
Proof.
  apply (unknown_members_are_ignored Schemas.Material Api.post_materials
           "id" (JStr "abc") Examples.material_members [] Examples.seeded).
  - simpl. tauto.
  - simpl. intros E. repeat (destruct E as [E|E]; [discriminate E|]). exact E.
Defined.













(** ** Seeding again *)

Section SeedingMore.
Import Database Driver DatabasePy Main Api Spec Frames.

(** The second half of [seed_demo_body] only writes to the tutor
    collection, the first half only to the material collection. *)
Lemma seed_tutors_grows (names : list string) :
  In "tutor" names ->
  preserves (grows names)
    (bind (count_documents "tutor")
       (fun n => if Nat.eqb n 0
                 then for_each demo_tutors
                        (fun t => bind (insert_one "tutor" t) (fun _ => ret tt))
                 else ret tt)).
Proof.
  intros Ht. apply preserves_bind; [apply preserves_count_documents|]. intros n.
  destruct (Nat.eqb n 0); [|apply preserves_ret].
  apply preserves_for_each. intros t.
  apply preserves_bind; [apply preserves_insert_one, Ht | intros o; apply preserves_ret].
Qed.

Lemma seed_materials_grows (names : list string) (n : nat) :
  In "material" names ->
  preserves (grows names)
    (if Nat.eqb n 0
     then for_each demo_materials
            (fun m => bind (insert_one "material" m) (fun _ => ret tt))
     else ret tt).
Proof.
  intros Hm. destruct (Nat.eqb n 0); [|apply preserves_ret].
  apply preserves_for_each. intros m.
  apply preserves_bind; [apply preserves_insert_one, Hm | intros o; apply preserves_ret].
Qed.

Lemma connect_cases (st : Store) :
  (exists st', connect (Some st) = (Ok st', Some st') /\ collections st' = collections st) \/
  (exists st', connect (Some st) = (Err StoreError, Some st') /\
               collections st' = collections st).
Proof.
  unfold connect. destruct (faults st) as [|[] fs]; eauto.
Qed.

Lemma coll_same (name : string) (st st' : Store) :
  collections st' = collections st -> coll name st' = coll name st.
Proof. unfold coll. intros ->. reflexivity. Qed.

Lemma materials_not_reseeded (st : Store) :
  coll "material" st <> [] ->
  docs_of (snd (seed_demo (Some st))) "material" = coll "material" st.
Proof.
  intros Hne.
  unfold seed_demo, try_except, seed_demo_body.
  rewrite (bind_ok get_db _ (Some st) (Some st) (Some st) eq_refl).
  unfold count_documents at 1. unfold bind at 1. unfold bind at 1.
  destruct (connect_cases st) as [(st' & -> & Hc)|(st' & -> & Hc)].
  - unfold ret at 1.
    assert (Nat.eqb (length (coll "material" st')) 0 = false) as ->.
    { rewrite (coll_same _ _ _ Hc). destruct (coll "material" st); [congruence|reflexivity]. }
    rewrite (bind_ok (ret tt) _ (Some st') (Some st') tt eq_refl).
    pose proof (seed_tutors_grows ["tutor"] (or_introl eq_refl) (Some st')) as Hg.
    assert (~ In "material" ["tutor"]) as Hn by (simpl; intros [E|[]]; discriminate E).
    pose proof (grows_docs_other _ _ _ "material" Hg Hn) as Hd.
    destruct (bind (count_documents "tutor") _ (Some st')) as [[u|e] s'];
      simpl in *; rewrite Hd; apply coll_same, Hc.
  - simpl. apply coll_same, Hc.
Qed.

Lemma tutors_not_reseeded (st : Store) :
  coll "tutor" st <> [] ->
  docs_of (snd (seed_demo (Some st))) "tutor" = coll "tutor" st.
Proof.
  intros Hne.
  unfold seed_demo, try_except, seed_demo_body.
  rewrite (bind_ok get_db _ (Some st) (Some st) (Some st) eq_refl).
  unfold count_documents at 1. unfold bind at 1. unfold bind at 1.
  destruct (connect_cases st) as [(st' & -> & Hc)|(st' & -> & Hc)];
    [|simpl; apply coll_same, Hc].
  unfold ret at 1.
  assert (~ In "tutor" ["material"]) as Hn by (simpl; intros [E|[]]; discriminate E).
  pose proof (seed_materials_grows ["material"] (length (coll "material" st'))
                (or_introl eq_refl) (Some st')) as Hg.
  pose proof (grows_docs_other _ _ _ "tutor" Hg Hn) as Hd.
  unfold bind at 1.
  destruct ((if Nat.eqb (length (coll "material" st')) 0
             then for_each demo_materials
                    (fun m => bind (insert_one "material" m) (fun _ => ret tt))
             else ret tt) (Some st')) as [[u|e] s1] eqn:E1; simpl in Hd.
  - destruct s1 as [st1|]; [|simpl in Hg; contradiction].
    simpl in Hd.
    unfold count_documents at 1. unfold bind at 1. unfold bind at 1.
    destruct (connect_cases st1) as [(st2 & -> & Hc2)|(st2 & -> & Hc2)].
    + unfold ret at 1.
      assert (coll "tutor" st2 = coll "tutor" st) as Et.
      { rewrite (coll_same _ _ _ Hc2), Hd. apply coll_same, Hc. }
      assert (Nat.eqb (length (coll "tutor" st2)) 0 = false) as ->.
      { rewrite Et. destruct (coll "tutor" st); [congruence|reflexivity]. }
      simpl. exact Et.
    + simpl. rewrite (coll_same _ _ _ Hc2), Hd. apply coll_same, Hc.
  - simpl. rewrite Hd. apply coll_same, Hc.
Qed.

End SeedingMore.

(** X13. A collection that holds a document is never seeded, whatever the
    failures of the store; hence an interrupted seeding is not completed by
    a later start-up, and on a store that does not fail a second start-up
    changes nothing. *)
Theorem seeding_skips_what_is_there :
  (forall st : Database.Store,
      Driver.coll "material" st <> [] ->
      Spec.docs_of (snd (Main.seed_demo (Some st))) "material" = Driver.coll "material" st) /\
  (forall st : Database.Store,
      Driver.coll "tutor" st <> [] ->
      Spec.docs_of (snd (Main.seed_demo (Some st))) "tutor" = Driver.coll "tutor" st) /\
  (forall st : Database.Store,
      Database.faults st = [] ->
      Main.seed_demo (snd (Main.seed_demo (Some st)))
      = (Ok tt, snd (Main.seed_demo (Some st)))).
Proof.
  split; [exact materials_not_reseeded|]. split; [exact tutors_not_reseeded|].
  intros st Hst. pose proof (seed_demo_healthy st Hst) as Hrun. cbv zeta in Hrun.
  set (st1 := match Driver.coll "material" st with
              | [] => Spec.insert_all "material" Main.demo_materials st
              | _ :: _ => st
              end) in Hrun.
  set (st2 := match Driver.coll "tutor" st1 with
              | [] => Spec.insert_all "tutor" Main.demo_tutors st1
              | _ :: _ => st1
              end) in Hrun.
  rewrite Hrun. change (snd (Ok tt, Some st2)) with (Some st2).
  assert (Database.faults st1 = []) as H1.
  { unfold st1. destruct (Driver.coll "material" st); [rewrite insert_all_faults|]; exact Hst. }
  assert (Database.faults st2 = []) as H2.
  { unfold st2. destruct (Driver.coll "tutor" st1); [rewrite insert_all_faults|]; exact H1. }
  assert (exists m ms, Driver.coll "material" st1 = m :: ms) as (m & ms & Em).
  { unfold st1. destruct (Driver.coll "material" st) as [|m ms] eqn:E.
    - rewrite insert_all_same, E. simpl. eauto.
    - rewrite E. eauto. }
  assert (exists t ts, Driver.coll "tutor" st2 = t :: ts) as (t & ts & Et).
  { unfold st2. destruct (Driver.coll "tutor" st1) as [|t ts] eqn:E.
    - rewrite insert_all_same, E. simpl. eauto.
    - rewrite E. eauto. }
  assert (Driver.coll "material" st2 = m :: ms) as Em2.
  { unfold st2. destruct (Driver.coll "tutor" st1).
    - rewrite insert_all_other by discriminate. exact Em.
    - exact Em. }
  rewrite (seed_demo_healthy st2 H2). cbv zeta. rewrite Em2, Et. reflexivity.
Qed.

(** ** Identifiers come back *)

Section IdentifierFacts.
Import Pydantic Database Driver DatabasePy Main Api Spec.




End IdentifierFacts.



(** ** More on listing *)

Section ListingMore.
Import Database Driver DatabasePy Main Api Spec Frames.

Lemma sublist_filter_map {A B} (f : A -> B) (p : A -> bool) (l : list A) :
  sublist (map f (List.filter p l)) (map f l).
Proof.
  induction l as [|a l IH]; simpl; [constructor|].
  destruct (p a); simpl; [apply sublist_skip | apply sublist_cons]; exact IH.
Qed.

Lemma list_tutors_all (course subject : option string) (st : Store) :
  faults st = [] ->
  match subject with Some sb => PyStr.nonempty sb = false | None => True end ->
  list_tutors course subject (Some st)
  = (Ok (items_response
           (map serialize_doc (List.filter (field_is "course" course) (coll "tutor" st)))),
     Some st).
Proof.
  intros Hst Hs. unfold list_tutors.
  fold (course_filter course).
  unfold bind at 1. rewrite (get_documents_healthy st Hst).
  rewrite (List.filter_ext _ _ (matches_course course)).
  destruct subject as [sb|]; [rewrite Hs|]; reflexivity.
Qed.

Lemma comprehension_raises (p : doc -> result exn bool) (e : exn) (items : list doc) :
  (forall i r, p i = Err r -> r = e) ->
  (exists i, In i items /\ p i = Err e) ->
  comprehension p items = Err e.
Proof.
  intros Honly. induction items as [|i items IH]; intros (j & Hin & Hj); [destruct Hin|].
  simpl. destruct (p i) as [b|r] eqn:Ei.
  - destruct Hin as [->|Hin]; [congruence|].
    rewrite IH by eauto. reflexivity.
  - rewrite (Honly _ _ Ei). reflexivity.
Qed.

Lemma material_hit_raises (ql : string) (i : doc) (r : exn) :
  material_hit ql i = Err r -> r = AttributeError.
Proof.
  unfold material_hit, py_lower.
  destruct (get i "title" (VStr "")); try (intros [= <-]; reflexivity).
  destruct (PyStr.contains ql (PyStr.lower s)); [discriminate|].
  destruct (py_or (get i "description" VNone) (VStr ""));
    try (intros [= <-]; reflexivity); discriminate.
Qed.

End ListingMore.

(** X15. Searching only narrows a listing: on a store that does not fail
    and holds validated documents, the items found for a [q] (materials) or
    a [subject] (tutors) are a sublist, in the same order, of the items
    listed without it. *)
Theorem search_only_narrows
        (course subject : option string) (q : string) (st : Database.Store) :
  Database.faults st = [] ->
  Spec.shaped st = true ->
  (exists found every : list doc,
      Main.list_materials course subject (Some q) (Some st)
      = (Ok (Main.items_response found), Some st) /\
      Main.list_materials course subject None (Some st)
      = (Ok (Main.items_response every), Some st) /\
      sublist found every) /\
  (exists found every : list doc,
      Main.list_tutors course (Some q) (Some st)
      = (Ok (Main.items_response found), Some st) /\
      Main.list_tutors course None (Some st)
      = (Ok (Main.items_response every), Some st) /\
      sublist found every).
Proof.
  intros Hst Hsh. unfold Spec.shaped in Hsh. apply andb_true_iff in Hsh as [Hm Ht].
  split.
  - eexists _, _. split; [exact (list_materials_healthy course subject q st Hst Hm)|].
    split; [exact (list_materials_all course subject st Hst)|].
    apply sublist_filter_map.
  - destruct (PyStr.nonempty q) eqn:Eq.
    + eexists _, _. split; [exact (list_tutors_healthy course q st Hst Ht Eq)|].
      split; [exact (list_tutors_all course None st Hst I)|].
      apply sublist_filter_map.
    + eexists _, _. split; [exact (list_tutors_all course (Some q) st Hst Eq)|].
      split; [exact (list_tutors_all course None st Hst I)|].
      reflexivity.
Qed.

Lemma search_only_narrows_witness :
  (exists found every : list doc,
      Main.list_materials None None (Some "circuit") (Some Examples.seeded_store)
      = (Ok (Main.items_response found), Some Examples.seeded_store) /\
      Main.list_materials None None None (Some Examples.seeded_store)
      = (Ok (Main.items_response every), Some Examples.seeded_store) /\
      sublist found every) /\
  (exists found every : list doc,
      Main.list_tutors None (Some "circuit") (Some Examples.seeded_store)
      = (Ok (Main.items_response found), Some Examples.seeded_store) /\
      Main.list_tutors None None (Some Examples.seeded_store)
      = (Ok (Main.items_response every), Some Examples.seeded_store) /\
      sublist found every).
Proof.
  apply (search_only_narrows None None "circuit" Examples.seeded_store).
  - vm_compute. reflexivity.
  - vm_compute. reflexivity.
Defined.

(** X16. A stored title that is not a string breaks the search: on a store
    that does not fail, if a material that passes the course and subject
    filters has a [title] that is present but not a string (for instance
    [None]), a listing with a non-empty [q] raises [AttributeError], which
    is answered 500. *)
Theorem non_string_title_breaks_search
        (course subject : option string) (q : string) (st : Database.Store)
        (d : doc) (v : value) :
  Database.faults st = [] ->
  PyStr.nonempty q = true ->
  In d (Driver.coll "material" st) ->
  Spec.field_is "course" course d && Spec.field_is "subject" subject d = true ->
  d !! "title" = Some v ->
  Spec.is_str v = false ->
  Main.list_materials course subject (Some q) (Some st) = (Err AttributeError, Some st) /\
  Api.status_of (fst (Main.list_materials course subject (Some q) (Some st))) = 500%Z.
Proof.
  intros Hst Hq Hin Hflt Ht Hv.
  assert (Main.list_materials course subject (Some q) (Some st)
          = (Err AttributeError, Some st)) as E.
  { unfold Main.list_materials.
    fold (Spec.course_filter course).
    unfold Database.bind at 1. rewrite (get_documents_healthy st Hst).
    rewrite (List.filter_ext _ _ (matches_course_subject course subject)).
    rewrite Hq. unfold Database.bind, Main.lift.
    rewrite (comprehension_raises _ AttributeError).
    - reflexivity.
    - intros i r. apply material_hit_raises.
    - exists (serialize_doc d). split.
      + apply in_map, List.filter_In. split; assumption.
      + unfold Main.material_hit, Main.get.
        rewrite serialize_doc_frame by discriminate. rewrite Ht. simpl.
        destruct v; try reflexivity. discriminate Hv. }
  rewrite E. split; reflexivity.
Qed.

Lemma non_string_title_breaks_search_witness :
  Main.list_materials None None (Some "pages") (Some Samples.untitled_store)
  = (Err AttributeError, Some Samples.untitled_store) /\
  Api.status_of
    (fst (Main.list_materials None None (Some "pages") (Some Samples.untitled_store)))
  = 500%Z.
Proof.
  apply (non_string_title_breaks_search None None "pages" Samples.untitled_store
           Samples.untitled_material VNone).
  - reflexivity.
  - reflexivity.
  - vm_compute. left. reflexivity.
  - reflexivity.
  - vm_compute. reflexivity.
  - reflexivity.
Defined.

(** ** The diagnostic endpoint *)

Section DiagnosticFacts.
Import Database Driver Diagnostics Spec Frames.

Variable getenv : string -> option string.
Variable name_of : Store -> value.
Variable str_exn : exn -> string.

(** The probe always returns, and says whether it reached the store. *)
Lemma probe_cases (response : doc) (db : Db) :
  exists (r : doc) (l : list string),
    fst (probe name_of str_exn response db) = Ok r /\
    (forall k, k <> "database" -> k <> "database_url" -> k <> "database_name" ->
               k <> "connection_status" -> k <> "collections" ->
               r !! k = response !! k) /\
    r !! "connection_status"
    = match db with
      | Some _ => Some (VStr "Connected")
      | None => response !! "connection_status"
      end /\
    (r !! "collections" = response !! "collections" \/
     (r !! "collections" = Some (VList (VStr <$> l)) /\ (length l <= 10)%nat)) /\
    (db = None ->
     r !! "database" = Some (VStr "⚠️  Available but not initialized") /\
     r !! "collections" = response !! "collections").
Proof.
  unfold probe, try_except, bind, get_db.
  destruct db as [st|]; simpl.
  - unfold list_collection_names, bind, connect, ret.
    destruct (faults st) as [|[] fs]; simpl;
      eexists _, (firstn 10 (map fst (map_to_list (collections st))));
      (split; [reflexivity|]);
      (split; [intros k H1 H2 H3 H4 H5; rewrite ?lookup_insert_ne by congruence; reflexivity|]);
      (split; [rewrite ?lookup_insert_ne by discriminate; apply lookup_insert_eq|]);
      (split; [|discriminate]).
    + right. rewrite lookup_insert_ne by discriminate. rewrite lookup_insert_eq.
      split; [reflexivity | apply firstn_le_length].
    + left. rewrite !lookup_insert_ne by discriminate. reflexivity.
    + right. rewrite lookup_insert_ne by discriminate. rewrite lookup_insert_eq.
      split; [reflexivity | apply firstn_le_length].
  - eexists _, []. split; [reflexivity|].
    split; [intros k H1 H2 H3 H4 H5; rewrite lookup_insert_ne by congruence; reflexivity|].
    split; [rewrite lookup_insert_ne by discriminate; reflexivity|].
    split; [left; rewrite lookup_insert_ne by discriminate; reflexivity|].
    intros _. split; [apply lookup_insert_eq|].
    rewrite lookup_insert_ne by discriminate; reflexivity.
Qed.

Lemma test_database_run (db : Db) :
  exists (r : doc) (l : list string),
    fst (test_database getenv name_of str_exn db)
    = Ok (<["database_name" :=
              VStr (if env_set getenv "DATABASE_NAME" then "✅ Set" else "❌ Not Set")]>
            (<["database_url" :=
                 VStr (if env_set getenv "DATABASE_URL" then "✅ Set" else "❌ Not Set")]>
               r)) /\
    r !! "backend" = Some (VStr "✅ Running") /\
    r !! "connection_status"
    = Some (VStr match db with Some _ => "Connected" | None => "Not Connected" end) /\
    r !! "collections" = Some (VList (VStr <$> l)) /\ (length l <= 10)%nat /\
    (db = None ->
     r !! "database" = Some (VStr "⚠️  Available but not initialized") /\ l = []).
Proof.
  destruct (probe_cases initial_response db) as (r & l & Hr & Hk & Hc & Hl & Hn).
  unfold test_database, bind.
  destruct (probe name_of str_exn initial_response db) as [[r'|e] s'];
    simpl in Hr; [injection Hr as ->|discriminate Hr].
  assert (exists l', r !! "collections" = Some (VList (VStr <$> l')) /\
                     (length l' <= 10)%nat /\ (db = None -> l' = [])) as (l' & Hl1 & Hl2 & Hl3).
  { destruct Hl as [Hl|[Hl Hlen]].
    - exists []. rewrite Hl. repeat split. simpl; lia.
    - exists l. repeat split; try assumption.
      intros E. destruct (Hn E) as [_ Hn2]. rewrite Hn2 in Hl.
      vm_compute in Hl. injection Hl as Hl. destruct l; [reflexivity|discriminate Hl]. }
  exists r, l'. split; [reflexivity|].
  split; [rewrite Hk by discriminate; reflexivity|].
  split; [rewrite Hc; destruct db; reflexivity|].
  split; [exact Hl1|]. split; [exact Hl2|].
  intros E. split; [exact (proj1 (Hn E)) | exact (Hl3 E)].
Qed.

End DiagnosticFacts.

(** X17. The diagnostic endpoint always answers, changes no collection, and
    reports the two environment variables from the environment alone: what
    the probe wrote under [database_url] and [database_name] is overwritten,
    and a variable that is set to the empty string is reported as not set. *)
Theorem test_database_reports_environment
        (getenv : string -> option string) (name_of : Database.Store -> value)
        (str_exn : exn -> string) (db : Database.Db) :
  exists resp : doc,
    fst (Diagnostics.test_database getenv name_of str_exn db) = Ok resp /\
    resp !! "backend" = Some (VStr "✅ Running") /\
    resp !! "database_url"
    = Some (VStr (if Diagnostics.env_set getenv "DATABASE_URL"
                  then "✅ Set" else "❌ Not Set")) /\
    resp !! "database_name"
    = Some (VStr (if Diagnostics.env_set getenv "DATABASE_NAME"
                  then "✅ Set" else "❌ Not Set")) /\
    (getenv "DATABASE_URL" = Some "" -> resp !! "database_url" = Some (VStr "❌ Not Set")) /\
    (forall name : string,
        Spec.docs_of (snd (Diagnostics.test_database getenv name_of str_exn db)) name
        = Spec.docs_of db name).
Proof.
  destruct (test_database_run getenv name_of str_exn db) as (r & l & Hr & Hb & _).
  eexists. split; [exact Hr|].
  split; [rewrite !lookup_insert_ne by discriminate; exact Hb|].
  split; [rewrite lookup_insert_ne by discriminate; apply lookup_insert_eq|].
  split; [apply lookup_insert_eq|].
  split.
  - intros E. rewrite lookup_insert_ne by discriminate. rewrite lookup_insert_eq.
    unfold Diagnostics.env_set. rewrite E. reflexivity.
  - intros name. apply grows_nil_docs, preserves_test_database.
Qed.

(** X18. What the diagnostic endpoint says about the store: [collections]
    is a list of at most ten names, [connection_status] is [Connected]
    exactly when the handle is not [None], and without a handle the
    database is reported as not initialized with no collections. *)
Theorem test_database_reports_store
        (getenv : string -> option string) (name_of : Database.Store -> value)
        (str_exn : exn -> string) (db : Database.Db) :
  exists (resp : doc) (l : list string),
    fst (Diagnostics.test_database getenv name_of str_exn db) = Ok resp /\
    resp !! "collections" = Some (VList (VStr <$> l)) /\
    (length l <= 10)%nat /\
    resp !! "connection_status"
    = Some (VStr match db with Some _ => "Connected" | None => "Not Connected" end) /\
    (db = None ->
     resp !! "database" = Some (VStr "⚠️  Available but not initialized") /\ l = []).
Proof.
  destruct (test_database_run getenv name_of str_exn db)
    as (r & l & Hr & _ & Hc & Hl & Hlen & Hn).
  eexists _, l. split; [exact Hr|].
  split; [rewrite !lookup_insert_ne by discriminate; exact Hl|].
  split; [exact Hlen|].
  split; [rewrite !lookup_insert_ne by discriminate; exact Hc|].
  intros E. destruct (Hn E) as [Hd Hl0]. split; [|exact Hl0].
  rewrite !lookup_insert_ne by discriminate. exact Hd.
Qed.

Example test_database_sample :
  match fst (Diagnostics.test_database Samples.sample_env (fun _ => VStr "learnhub")
               (fun _ => "unreachable") Examples.seeded) with
  | Ok resp =>
      (resp !! "database", resp !! "database_url", resp !! "database_name",
       resp !! "connection_status")
  | Err _ => (None, None, None, None)
  end
  = (Some (VStr "✅ Connected & Working"), Some (VStr "✅ Set"),
     Some (VStr "❌ Not Set"), Some (VStr "Connected")).
Proof. vm_compute. reflexivity. Qed.
